(** * AS3935 lightning sensor: the LightningDetector sketch and its driver

    The development has two parts.

    - [Sketch] embeds [LightningDetector.ino]: the interrupt handler
      [AS3935Irq], [setup], [loop] and [printAS3935Registers].  The sketch
      talks to an [AS3935] object whose class is not part of the sketch, so
      the object is an interface ([AS3935_lib]) and every statement about the
      sketch holds for all its implementations.
    - [Driver] is the register-level driver (transport, configuration
      fields, calibration), which the sketch only calls.  Its source is not
      part of the sketch; its definitions follow the design document and say
      so.

    C [int]s are modelled as [Z]; the sketch only compares them and masks
    them with [&], which [Z.land] computes on two's-complement integers of
    any width. *)

From Stdlib Require Import ZArith String List Bool Lia.
Import ListNotations.
Open Scope Z_scope.

(** ** Observable steps of the sketch *)

(** A call of a method of the [AS3935] object, with the value it returned.
    Every such call is a register-transport activity of the driver. *)
Inductive libcall : Type :=
| CallReset
| CallCalibrate (ok : bool)
| CallSetIndoors
| CallEnableDisturbers
| CallGetNoiseFloor (v : Z)
| CallGetSpikeRejection (v : Z)
| CallGetWatchdogThreshold (v : Z)
| CallInterruptSource (v : Z)
| CallLightningDistanceKm (v : Z).

(** What one statement of the sketch does to the outside world: an access to
    the volatile flag [AS3935IrqTriggered], a call into the driver object,
    host set-up calls, or serial output. *)
Inductive step : Type :=
| FlagRead (v : Z)
| FlagWrite (v : Z)
| Lib (c : libcall)
| SerialBegin (baud : Z)
| SpiBegin
| SpiSetDataMode (m : string)
| SpiSetClockDivider (d : string)
| SpiSetBitOrder (o : string)
| AttachInterrupt (pin : string) (mode : string)
| SerialPrint (s : string)
| SerialPrintDec (n : Z)
| SerialPrintln (s : string)
| SerialPrintlnDec (n : Z).

Definition is_flag_write (s : step) : bool :=
  match s with FlagWrite _ => true | _ => false end.

Definition is_flag_clear (s : step) : bool :=
  match s with FlagWrite v => v =? 0 | _ => false end.

Definition is_transport (s : step) : bool :=
  match s with Lib _ => true | _ => false end.

Definition is_irq_source_read (s : step) : bool :=
  match s with Lib (CallInterruptSource _) => true | _ => false end.

Definition is_distance_read (s : step) : bool :=
  match s with Lib (CallLightningDistanceKm _) => true | _ => false end.

Definition is_serial (s : step) : bool :=
  match s with
  | SerialPrint _ | SerialPrintDec _ | SerialPrintln _ | SerialPrintlnDec _ => true
  | _ => false
  end.

(** Number of steps of a trace that satisfy [p]. *)
Definition count (p : step -> bool) (t : list step) : nat :=
  List.length (filter p t).

(** Position of the first step of a trace that satisfies [p]. *)
Fixpoint first_index (p : step -> bool) (t : list step) : option nat :=
  match t with
  | [] => None
  | s :: t' => if p s then Some 0%nat
               else option_map S (first_index p t')
  end.

(** [precedes p q t]: some [p]-step of [t] comes strictly before some
    [q]-step of [t]. *)
Definition precedes (p q : step -> bool) (t : list step) : Prop :=
  exists i j a b,
    nth_error t i = Some a /\ nth_error t j = Some b /\
    p a = true /\ q b = true /\ (i < j)%nat.

(** ** The driver object as the sketch sees it *)

Class AS3935_lib (dev : Type) : Type := {
  reset : dev -> dev;
  calibrate : dev -> bool * dev;
  setIndoors : dev -> dev;
  enableDisturbers : dev -> dev;
  getNoiseFloor : dev -> Z * dev;
  getSpikeRejection : dev -> Z * dev;
  getWatchdogThreshold : dev -> Z * dev;
  interruptSource : dev -> Z * dev;
  lightningDistanceKm : dev -> Z * dev
}.

(** ** Interrupt events and the messages that announce them *)

Inductive InterruptEvent : Type :=
| NoiseFloorTooHigh
| DisturberDetected
| Lightning (distance_km : Z).

Definition msg_noise : string := "Noise level too high, try adjusting noise floor".
Definition msg_disturber : string := "Disturber detected".
Definition msg_overhead : string := "Storm overhead, watch out!".
Definition msg_out_of_range : string := "Out of range lightning detected.".
Definition msg_lightning_pre : string := "Lightning detected ".
Definition msg_lightning_post : string := " kilometers away.".
Definition msg_tuning : string :=
  "Tuning out of range, check your wiring, your sensor and make sure physics laws have not changed!".

(** The events a reader of the serial line sees in a trace: each message of
    [loop] announces one event.  The overhead and out-of-range messages are
    the two sentinel distances. *)
Fixpoint events_of (t : list step) : list InterruptEvent :=
  match t with
  | [] => []
  | SerialPrintln m :: t1 =>
      if String.eqb m msg_noise then NoiseFloorTooHigh :: events_of t1
      else if String.eqb m msg_disturber then DisturberDetected :: events_of t1
      else if String.eqb m msg_overhead then Lightning 1 :: events_of t1
      else if String.eqb m msg_out_of_range then Lightning 63 :: events_of t1
      else events_of t1
  | SerialPrint m :: t1 =>
      match t1 with
      | SerialPrintDec d :: SerialPrintln m' :: t3 =>
          if String.eqb m msg_lightning_pre && String.eqb m' msg_lightning_post
          then Lightning d :: events_of t3
          else events_of t1
      | _ => events_of t1
      end
  | _ :: t1 => events_of t1
  end.

(** ** The sketch *)

Module Sketch.

Section WithDriver.

Context {dev : Type} {lib : AS3935_lib dev}.

(** Global state of the sketch: the volatile flag and the [AS3935] object. *)
Record state : Type := mkState {
  AS3935IrqTriggered : Z;
  AS3935 : dev
}.

(** Sketch code: a state transformer that also emits the steps it takes. *)
Definition Sk (A : Type) : Type := state -> A * state * list step.

Definition ret {A} (a : A) : Sk A := fun s => (a, s, []).

Definition bind {A B} (m : Sk A) (k : A -> Sk B) : Sk B :=
  fun s =>
    let '(a, s1, t1) := m s in
    let '(b, s2, t2) := k a s1 in
    (b, s2, t1 ++ t2).

Definition emit (e : step) : Sk unit := fun s => (tt, s, [e]).

Definition when (c : bool) (m : Sk unit) : Sk unit :=
  if c then m else ret tt.

Notation "x <- m ;; k" := (bind m (fun x => k))
  (at level 61, m at next level, right associativity).
Notation "m ;; k" := (bind m (fun _ => k))
  (at level 61, right associativity).

(** Steps taken, and state reached, by a piece of sketch code. *)
Definition trace_of {A} (m : Sk A) (s : state) : list step := snd (m s).
Definition state_after {A} (m : Sk A) (s : state) : state := snd (fst (m s)).

(** A C [int] used as a condition. *)
Definition truthy (x : Z) : bool := negb (x =? 0).

(** Accesses to the volatile flag. *)
Definition read_flag : Sk Z :=
  fun s => (AS3935IrqTriggered s, s, [FlagRead (AS3935IrqTriggered s)]).

Definition write_flag (v : Z) : Sk unit :=
  fun s => (tt, mkState v (AS3935 s), [FlagWrite v]).

(** Method calls on the [AS3935] object. *)
Definition call_unit (f : dev -> dev) (c : libcall) : Sk unit :=
  fun s => (tt, mkState (AS3935IrqTriggered s) (f (AS3935 s)), [Lib c]).

Definition call_val {A} (f : dev -> A * dev) (c : A -> libcall) : Sk A :=
  fun s =>
    let '(v, d) := f (AS3935 s) in
    (v, mkState (AS3935IrqTriggered s) d, [Lib (c v)]).

Definition println (m : string) : Sk unit := emit (SerialPrintln m).
Definition print (m : string) : Sk unit := emit (SerialPrint m).
Definition print_dec (n : Z) : Sk unit := emit (SerialPrintDec n).
Definition println_dec (n : Z) : Sk unit := emit (SerialPrintlnDec n).

(** [void AS3935Irq()] *)
Definition AS3935Irq : Sk unit :=
  write_flag 1.

(** [void printAS3935Registers()] *)
Definition printAS3935Registers : Sk unit :=
  noiseFloor <- call_val getNoiseFloor CallGetNoiseFloor ;;
  spikeRejection <- call_val getSpikeRejection CallGetSpikeRejection ;;
  watchdogThreshold <- call_val getWatchdogThreshold CallGetWatchdogThreshold ;;
  print "Noise floor is: " ;;
  println_dec noiseFloor ;;
  print "Spike rejection is: " ;;
  println_dec spikeRejection ;;
  print "Watchdog threshold is: " ;;
  println_dec watchdogThreshold.

(** [void setup()] *)
Definition setup : Sk unit :=
  emit (SerialBegin 9600) ;;
  emit SpiBegin ;;
  emit (SpiSetDataMode "SPI_MODE1") ;;
  emit (SpiSetClockDivider "SPI_CLOCK_DIV64") ;;
  emit (SpiSetBitOrder "MSBFIRST") ;;
  call_unit reset CallReset ;;
  ok <- call_val calibrate CallCalibrate ;;
  when (negb ok) (println msg_tuning) ;;
  call_unit setIndoors CallSetIndoors ;;
  call_unit enableDisturbers CallEnableDisturbers ;;
  printAS3935Registers ;;
  write_flag 0 ;;
  emit (AttachInterrupt "D2" "RISING").

(** The body of [if (irqSource & 0b1000) { ... }] after the distance has
    been read. *)
Definition report_distance (strokeDistance : Z) : Sk unit :=
  when (strokeDistance =? 1) (println msg_overhead) ;;
  when (strokeDistance =? 63) (println msg_out_of_range) ;;
  when ((strokeDistance <? 63) && (strokeDistance >? 1))
    (print msg_lightning_pre ;;
     print_dec strokeDistance ;;
     println msg_lightning_post).

(** [void loop()]: one poll-and-classify pass. *)
Definition loop : Sk unit :=
  triggered <- read_flag ;;
  when (truthy triggered)
    (write_flag 0 ;;
     irqSource <- call_val interruptSource CallInterruptSource ;;
     when (truthy (Z.land irqSource 1)) (println msg_noise) ;;
     when (truthy (Z.land irqSource 4)) (println msg_disturber) ;;
     when (truthy (Z.land irqSource 8))
       (strokeDistance <- call_val lightningDistanceKm CallLightningDistanceKm ;;
        report_distance strokeDistance)).

(** The value [interruptSource()] returns in state [s], and the value
    [lightningDistanceKm()] returns when called right after it. *)
Definition irq_of (s : state) : Z := fst (interruptSource (AS3935 s)).
Definition dist_of (s : state) : Z :=
  fst (lightningDistanceKm (snd (interruptSource (AS3935 s)))).

(** What [calibrate()] answers in [setup], and the sketch state just before
    [setup] calls [printAS3935Registers]: the driver object has been reset,
    calibrated, told it is indoors and told to report disturbers. *)
Definition setup_calibrated (s : state) : bool :=
  fst (calibrate (reset (AS3935 s))).

Definition setup_configured (s : state) : state :=
  mkState (AS3935IrqTriggered s)
    (enableDisturbers (setIndoors (snd (calibrate (reset (AS3935 s)))))).

End WithDriver.

Arguments state dev : clear implicits.
Arguments Sk dev A : clear implicits.

End Sketch.

(** ** Vocabulary of the statements about one pass of [loop] *)

(** The events the interrupt-source value [irq] stands for, bit by bit, with
    [d] the content of the lightning-distance register. *)
Definition expected_events (irq d : Z) : list InterruptEvent :=
  (if Z.testbit irq 0 then [NoiseFloorTooHigh] else []) ++
  (if Z.testbit irq 2 then [DisturberDetected] else []) ++
  (if Z.testbit irq 3 then [Lightning d] else []).

(** The events a pass of [loop] announces for the interrupt-source value
    [irq] and the distance [d]: a strike is announced only for a distance
    that one of the three distance tests of [loop] accepts, 1..63. *)
Definition announced_events (irq d : Z) : list InterruptEvent :=
  (if Z.testbit irq 0 then [NoiseFloorTooHigh] else []) ++
  (if Z.testbit irq 2 then [DisturberDetected] else []) ++
  (if Z.testbit irq 3 && (1 <=? d) && (d <=? 63) then [Lightning d] else []).



(** The steps of a trace that follow its first read of the
    lightning-distance register. *)
Fixpoint after_distance_read (t : list step) : list step :=
  match t with
  | [] => []
  | s :: t' => if is_distance_read s then t' else after_distance_read t'
  end.

Definition is_lightning (e : InterruptEvent) : bool :=
  match e with Lightning _ => true | _ => false end.

(** ** A scripted chip, to run the sketch on concrete register contents *)

Module Bench.

Record chip : Type := mkChip {
  irq_reg : Z;
  distance_reg : Z;
  noise_floor_reg : Z;
  spike_rejection_reg : Z;
  watchdog_reg : Z;
  tunable : bool
}.

#[global] Instance bench_lib : AS3935_lib chip := {|
  reset c := c;
  calibrate c := (tunable c, c);
  setIndoors c := c;
  enableDisturbers c := c;
  getNoiseFloor c := (noise_floor_reg c, c);
  getSpikeRejection c := (spike_rejection_reg c, c);
  getWatchdogThreshold c := (watchdog_reg c, c);
  interruptSource c := (irq_reg c, c);
  lightningDistanceKm c := (distance_reg c, c)
|}.

(** A chip whose interrupt-source register holds [irq] and whose distance
    register holds [dist]. *)
Definition chip_with (irq dist : Z) : chip :=
  mkChip irq dist 2 2 1 true.

(** The sketch with its flag at [flag], attached to [chip_with irq dist]. *)
Definition sketch_with (flag irq dist : Z) : Sketch.state chip :=
  Sketch.mkState flag (chip_with irq dist).

End Bench.

(** ** The register-level driver *)

Module Driver.

(** Modelled from the spec: the [AS3935] class is not part of the sketch.
    Section 4.1, one framed register exchange on the bus, a read or a write
    of one register. *)
Inductive transaction : Type :=
| BusRead (addr data : Z)
| BusWrite (addr data : Z).

(** Modelled from the spec: section 6, "all state lives in device
    registers": the register bytes of the chip, with the exchanges made so
    far on its bus. *)
Record device : Type := mkDevice {
  regs : Z -> Z;
  bus : list transaction
}.

(** Modelled from the spec: the [AS3935] class is not part of the sketch.
    Section 4.1, [read_register(addr) -> byte]: one framed transaction that
    returns the data byte of the addressed register. *)
Definition read_register (addr : Z) (d : device) : Z * device :=
  (regs d addr, mkDevice (regs d) (bus d ++ [BusRead addr (regs d addr)])).

(** Modelled from the spec: the [AS3935] class is not part of the sketch.
    Section 4.1, [write_register(addr, byte)]: one framed transaction whose
    side effect is the new content of the addressed register. A register
    holds eight bits. *)
Definition write_register (addr byte : Z) (d : device) : device :=
  mkDevice (fun a => if a =? addr then Z.land byte 255 else regs d a)
           (bus d ++ [BusWrite addr (Z.land byte 255)]).

(** Modelled from the spec: section 3, Field Descriptor, the
    (register, bit-offset, bit-width) triple of a value packed into a shared
    register byte. *)
Record FieldDescriptor : Type := mkField {
  reg : Z;
  offset : Z;
  width : Z
}.

(** Modelled from the spec: section 2, a field is "a bounded field within a
    shared register byte". *)
Definition wf_field (fd : FieldDescriptor) : Prop :=
  0 <= offset fd /\ 0 < width fd /\ offset fd + width fd <= 8.

(** Bit [i] of the register belongs to the field. *)
Definition in_span (fd : FieldDescriptor) (i : Z) : Prop :=
  offset fd <= i < offset fd + width fd.

(** The bits of the register byte that belong to the field. *)
Definition mask (fd : FieldDescriptor) : Z :=
  Z.shiftl (Z.ones (width fd)) (offset fd).

(** Modelled from the spec: section 4.2, "mask-and-shift extraction". *)
Definition extract (fd : FieldDescriptor) (byte : Z) : Z :=
  Z.shiftr (Z.land byte (mask fd)) (offset fd).

(** Modelled from the spec: section 4.2, "mask-and-set the field bits". *)
Definition insert (fd : FieldDescriptor) (byte v : Z) : Z :=
  Z.lor (Z.land byte (Z.lnot (mask fd)))
        (Z.land (Z.shiftl v (offset fd)) (mask fd)).

(** Modelled from the spec: section 4.2, a setter "performs read-register,
    mask-and-set the field bits, write-register". *)
Definition set_field (fd : FieldDescriptor) (v : Z) (d : device) : device :=
  let '(byte, d1) := read_register (reg fd) d in
  write_register (reg fd) (insert fd byte v) d1.

(** Modelled from the spec: section 4.2, a getter is "read-register then
    mask-and-shift extraction". *)
Definition get_field (fd : FieldDescriptor) (d : device) : Z * device :=
  let '(byte, d1) := read_register (reg fd) d in
  (extract fd byte, d1).

(** Modelled from the spec: section 7, the error kinds. *)
Inductive DriverError : Type :=
| TransportFailure
| RegisterDecodeError
| CalibrationOutOfTolerance.

(** Modelled from the spec: section 7, failures reach the caller "as
    explicit results". *)
Inductive result (A : Type) : Type :=
| Ok (a : A)
| Err (e : DriverError).
Arguments Ok {A} a.
Arguments Err {A} e.

(** Modelled from the spec: section 2, the device settings: indoor/outdoor
    mode, disturber-detection enable, noise floor level, watchdog threshold,
    spike rejection. *)
Inductive Field : Type :=
| Mode
| Disturbers
| NoiseFloor
| WatchdogThreshold
| SpikeRejection.

(** Modelled from the spec: section 4.2, [set_mode(Indoor|Outdoor)]. *)
Inductive ModeSetting : Type := Indoor | Outdoor.

(** Modelled from the spec: section 4.2,
    [set_disturbers(Enabled|Disabled)]. *)
Inductive DisturberSetting : Type := Enabled | Disabled.

(** Modelled from the spec: the register map is not in the sketch and the
    spec gives no addresses, so where each field lives and how the two
    enumerated settings are coded are parameters of the driver. *)
Record Layout : Type := mkLayout {
  descriptor : Field -> FieldDescriptor;
  mode_code : ModeSetting -> Z;
  disturbers_code : DisturberSetting -> Z
}.

Section Configuration.

Variable L : Layout.

(** Modelled from the spec: section 4.2, the documented enumeration of each
    field: noise floor 0..7, watchdog threshold 0..10, spike rejection 0..11,
    and the two settings of the mode and of the disturber switch. *)
Definition valid (f : Field) (v : Z) : bool :=
  match f with
  | Mode => (v =? mode_code L Indoor) || (v =? mode_code L Outdoor)
  | Disturbers => (v =? disturbers_code L Enabled) || (v =? disturbers_code L Disabled)
  | NoiseFloor => (0 <=? v) && (v <=? 7)
  | WatchdogThreshold => (0 <=? v) && (v <=? 10)
  | SpikeRejection => (0 <=? v) && (v <=? 11)
  end.

(** Every field lies inside its byte and is wide enough for its values. *)
Definition wf_layout : Prop :=
  forall f, wf_field (descriptor L f) /\
            forall v, valid f v = true -> 0 <= v < 2 ^ width (descriptor L f).

(** Modelled from the spec: section 4.2, the setter of field [f]. *)
Definition set_config (f : Field) (v : Z) (d : device) : device :=
  set_field (descriptor L f) v d.

(** Modelled from the spec: section 4.2, a value read back outside its
    enumeration is "reported as a decode error rather than silently
    clamped". *)
Definition get_config (f : Field) (d : device) : result Z * device :=
  let '(v, d1) := get_field (descriptor L f) d in
  (if valid f v then Ok v else Err RegisterDecodeError, d1).

(** Modelled from the spec: section 4.2, the named setters and getters. *)
Definition set_mode (m : ModeSetting) : device -> device :=
  set_config Mode (mode_code L m).

Definition set_disturbers (e : DisturberSetting) : device -> device :=
  set_config Disturbers (disturbers_code L e).

Definition get_noise_floor : device -> result Z * device :=
  get_config NoiseFloor.

Definition get_spike_rejection : device -> result Z * device :=
  get_config SpikeRejection.

Definition get_watchdog_threshold : device -> result Z * device :=
  get_config WatchdogThreshold.

End Configuration.

(** *** Calibration *)

(** Modelled from the spec: section 3, Calibration Result, "within
    tolerance" or "out of tolerance" with the measured deviation of the trim
    that was chosen (none when there was no candidate to measure). *)
Inductive CalibrationResult : Type :=
| WithinTolerance (deviation : Z)
| OutOfTolerance (deviation : option Z).

(** Modelled from the spec: section 3, the "boolean-like outcome" of a
    calibration, which is what the sketch tests; [false] is
    [CalibrationOutOfTolerance]. *)
Definition within_tolerance (r : CalibrationResult) : bool :=
  match r with
  | WithinTolerance _ => true
  | OutOfTolerance _ => false
  end.

(** Modelled from the spec: section 7, [CalibrationOutOfTolerance] is the
    error of a run in which "no trim candidate met the deviation bound". *)
Definition calibration_error (r : CalibrationResult) : option DriverError :=
  match r with
  | WithinTolerance _ => None
  | OutOfTolerance _ => Some CalibrationOutOfTolerance
  end.

(** Modelled from the spec: what section 4.3 leaves to the device
    documentation and to the transport under test: the registers and their power-on-reset values, the trim
    field, its ordered candidates, the tolerance band, and the deviation
    curve (signed deviation from the target for each trim) that a synthetic
    transport reports. *)
Record Tuning : Type := mkTuning {
  all_registers : list Z;
  por_default : Z -> Z;
  trim : FieldDescriptor;
  candidates : list Z;
  tolerance : Z;
  curve : Z -> Z
}.

Section Calibration.

Variable T : Tuning.

(** Modelled from the spec: section 4.2, [reset_to_defaults()] "writes the
    device's documented power-on-reset values to all registers". *)
Definition reset_to_defaults (d : device) : device :=
  fold_left (fun d' a => write_register a (por_default T a) d')
            (all_registers T) d.

(** Modelled from the spec: section 4.3, "measure the resulting oscillator
    output ... and record the frequency deviation from target"; the
    synthetic transport answers with its curve at the programmed trim. *)
Definition measure (d : device) : Z * device :=
  let '(v, d1) := get_field (trim T) d in
  (Z.abs (curve T v), d1).

(** Modelled from the spec: section 4.3, "select the trim value with
    minimal deviation": the better of the best candidate so far and a new
    measurement; an earlier candidate wins a tie. *)
Definition better (best : option (Z * Z)) (c dev_c : Z) : option (Z * Z) :=
  match best with
  | None => Some (c, dev_c)
  | Some (_, dev_b) => if dev_c <? dev_b then Some (c, dev_c) else best
  end.

(** Modelled from the spec: section 4.3, "for each candidate capacitance
    trim value in its ordered range, program the trim register, ... measure
    ... and record the frequency deviation from target". *)
Fixpoint sweep (cs : list Z) (best : option (Z * Z)) (d : device)
  : option (Z * Z) * device :=
  match cs with
  | [] => (best, d)
  | c :: cs' =>
      let d1 := set_field (trim T) c d in
      let '(dev_c, d2) := measure d1 in
      sweep cs' (better best c dev_c) d2
  end.

(** Modelled from the spec: section 4.3, [calibrate() -> CalibrationResult]:
    "reset device to defaults; for each candidate ... Select the trim value
    with minimal deviation; if no candidate lands within the documented
    tolerance band, calibration fails", leaving the device with "defaults +
    best-effort trim" also on failure. *)
Definition calibrate (d : device) : CalibrationResult * device :=
  let d0 := reset_to_defaults d in
  let '(best, d1) := sweep (candidates T) None d0 in
  match best with
  | None => (OutOfTolerance None, d1)
  | Some (c, dev_c) =>
      let d2 := set_field (trim T) c d1 in
      (if dev_c <=? tolerance T then WithinTolerance dev_c
       else OutOfTolerance (Some dev_c), d2)
  end.

(** The trims programmed over the bus, oldest first: the trim field of
    every byte written to the trim register. *)
Definition trims_written (b : list transaction) : list Z :=
  flat_map (fun x => match x with
                     | BusWrite a data =>
                         if a =? reg (trim T) then [extract (trim T) data]
                         else []
                     | BusRead _ _ => []
                     end) b.

(** The trim the device is left with. *)
Definition programmed_trim (d : device) : Z :=
  extract (trim T) (regs d (reg (trim T))).

(** The candidates fit the trim field. *)
Definition wf_tuning : Prop :=
  wf_field (trim T) /\
  Forall (fun c => 0 <= c < 2 ^ width (trim T)) (candidates T).

(** [best] is a candidate of [cs] with the absolute deviation the curve
    gives it, no worse than any candidate of [cs]; there is no best only
    among no candidates. *)
Definition is_best (cs : list Z) (best : option (Z * Z)) : Prop :=
  match best with
  | None => cs = []
  | Some (b, db) =>
      In b cs /\ db = Z.abs (curve T b) /\
      forall c, In c cs -> db <= Z.abs (curve T c)
  end.

End Calibration.

(** *** An example instance: the field positions of the AS3935 data sheet *)

Definition example_layout : Layout :=
  mkLayout
    (fun f => match f with
              | Mode => mkField 0 1 5
              | Disturbers => mkField 3 5 1
              | NoiseFloor => mkField 1 4 3
              | WatchdogThreshold => mkField 1 0 4
              | SpikeRejection => mkField 2 0 4
              end)
    (fun m => match m with Indoor => 18 | Outdoor => 14 end)
    (fun e => match e with Enabled => 0 | Disabled => 1 end).

(** A layout that gives every field the low four bits of register 1: wider
    than the noise floor needs, so that all three getters can read back a
    value outside their enumeration. *)
Definition loose_layout : Layout :=
  mkLayout (fun _ => mkField 1 0 4)
           (fun m => match m with Indoor => 0 | Outdoor => 1 end)
           (fun e => match e with Enabled => 0 | Disabled => 1 end).

(** A device whose registers all hold [byte]. *)
Definition device_filled (byte : Z) : device :=
  mkDevice (fun _ => byte) [].

(** A synthetic tuning run: sixteen trims whose deviation is
    [(c - best)^2 + floor], smallest at [best]. *)
Definition example_tuning (best floor : Z) : Tuning :=
  mkTuning [0; 1; 2; 3; 8] (fun a => if a =? 0 then 36 else if a =? 1 then 34 else if a =? 2 then 194 else 0)
           (mkField 8 0 4)
           [0; 1; 2; 3; 4; 5; 6; 7; 8; 9; 10; 11; 12; 13; 14; 15]
           17
           (fun c => (c - best) * (c - best) + floor).

End Driver.

(** ** The sketch under the Arduino runtime *)

(** What happens to the sketch after [setup]: the runtime calls [loop] again
    ([Poll]), or a rising edge on the IRQ pin runs the handler ([Edge]).
    Edges are taken between two calls of [loop]. *)
Inductive tick : Type :=
| Edge
| Poll.

Definition is_edge (k : tick) : bool :=
  match k with Edge => true | Poll => false end.

Module Runtime.

Section WithDriver.

Context {dev : Type} {lib : AS3935_lib dev}.

(** The handler fired [n] times in a row. *)
Fixpoint edges (n : nat) : Sketch.Sk dev unit :=
  match n with
  | O => Sketch.ret tt
  | S n' => Sketch.bind Sketch.AS3935Irq (fun _ => edges n')
  end.

(** The sketch run through a schedule of edges and polls. *)
Fixpoint run (sch : list tick) : Sketch.Sk dev unit :=
  match sch with
  | [] => Sketch.ret tt
  | Edge :: sch' => Sketch.bind Sketch.AS3935Irq (fun _ => run sch')
  | Poll :: sch' => Sketch.bind Sketch.loop (fun _ => run sch')
  end.

(** The whole program: [setup] once, then the schedule. *)
Definition main (sch : list tick) : Sketch.Sk dev unit :=
  Sketch.bind Sketch.setup (fun _ => run sch).

End WithDriver.

End Runtime.

(** The serial output of a trace. *)
Definition serial_of (t : list step) : list step := filter is_serial t.

(** A call into the driver object other than the two register reads of
    [loop]: a reset, a calibration, a setter or a configuration getter. *)
Definition is_config_call (s : step) : bool :=
  match s with
  | Lib (CallInterruptSource _) | Lib (CallLightningDistanceKm _) => false
  | Lib _ => true
  | _ => false
  end.

Definition is_attach (s : step) : bool :=
  match s with AttachInterrupt _ _ => true | _ => false end.

(** Whether the flag is pending after a schedule that started with the flag
    at [init]: the last tick decides. *)
Definition pending_after (sch : list tick) (init : Z) : Z :=
  fold_left (fun _ k => if is_edge k then 1 else 0) sch init.

(** * Properties *)

(** ** Bits of a C [int] *)

Lemma land_pow2 (x k : Z) :
  0 <= k -> Z.land x (2 ^ k) = if Z.testbit x k then 2 ^ k else 0.
Proof.
  intros Hk. apply Z.bits_inj'. intros n Hn.
  rewrite Z.land_spec, Z.pow2_bits_eqb by exact Hk.
  destruct (Z.eqb_spec k n) as [->|Hne].
  - destruct (Z.testbit x n).
    + now rewrite Z.pow2_bits_true.
    + now rewrite Z.bits_0.
  - rewrite andb_false_r. destruct (Z.testbit x k).
    + now rewrite Z.pow2_bits_false.
    + now rewrite Z.bits_0.
Qed.

Lemma truthy_mask (x k : Z) :
  0 <= k -> Sketch.truthy (Z.land x (2 ^ k)) = Z.testbit x k.
Proof.
  intros Hk. unfold Sketch.truthy. rewrite land_pow2 by exact Hk.
  destruct (Z.testbit x k).
  - assert (0 < 2 ^ k) by (apply Z.pow_pos_nonneg; lia).
    destruct (Z.eqb_spec (2 ^ k) 0); [lia | reflexivity].
  - reflexivity.
Qed.

Lemma truthy_1 x : Sketch.truthy (Z.land x 1) = Z.testbit x 0.
Proof. exact (truthy_mask x 0 (Z.le_refl 0)). Qed.

Lemma truthy_4 x : Sketch.truthy (Z.land x 4) = Z.testbit x 2.
Proof. apply (truthy_mask x 2). lia. Qed.

Lemma truthy_8 x : Sketch.truthy (Z.land x 8) = Z.testbit x 3.
Proof. apply (truthy_mask x 3). lia. Qed.

(** ** One pass of [loop] *)

Section LoopFacts.

Context {dev : Type} {lib : AS3935_lib dev}.

Import Sketch.

(** What [report_distance] prints. *)
Lemma report_distance_trace (d : Z) (s : state dev) :
  trace_of (report_distance d) s =
    (if d =? 1 then [SerialPrintln msg_overhead] else []) ++
    (if d =? 63 then [SerialPrintln msg_out_of_range] else []) ++
    (if (d <? 63) && (d >? 1)
     then [SerialPrint msg_lightning_pre; SerialPrintDec d;
           SerialPrintln msg_lightning_post]
     else []).
Proof.
  unfold trace_of, report_distance, bind, when, println, print, print_dec,
    emit, ret.
  destruct (d =? 1), (d =? 63), ((d <? 63) && (d >? 1)); reflexivity.
Qed.

Lemma report_distance_state (d : Z) (s : state dev) :
  state_after (report_distance d) s = s.
Proof.
  unfold state_after, report_distance, bind, when, println, print, print_dec,
    emit, ret.
  destruct (d =? 1), (d =? 63), ((d <? 63) && (d >? 1)); reflexivity.
Qed.

(** An idle pass only looks at the flag. *)
Lemma loop_idle (s : state dev) :
  AS3935IrqTriggered s = 0 ->
  trace_of loop s = [FlagRead 0] /\ state_after loop s = s.
Proof.
  intros H. unfold trace_of, state_after, loop, bind, read_flag, when, truthy.
  rewrite H. simpl. destruct s; simpl in *; subst; auto.
Qed.

(** The whole trace of a pass that finds the flag set. *)
Lemma loop_pending (s : state dev) :
  AS3935IrqTriggered s <> 0 ->
  trace_of loop s =
    [FlagRead (AS3935IrqTriggered s); FlagWrite 0;
     Lib (CallInterruptSource (irq_of s))] ++
    (if Z.testbit (irq_of s) 0 then [SerialPrintln msg_noise] else []) ++
    (if Z.testbit (irq_of s) 2 then [SerialPrintln msg_disturber] else []) ++
    (if Z.testbit (irq_of s) 3
     then Lib (CallLightningDistanceKm (dist_of s)) ::
          trace_of (report_distance (dist_of s)) s
     else []).
Proof.
  intros H. unfold irq_of, dist_of.
  unfold trace_of at 1. unfold loop, bind, read_flag, when, write_flag, call_val.
  assert (Ht : truthy (AS3935IrqTriggered s) = true).
  { unfold truthy. destruct (Z.eqb_spec (AS3935IrqTriggered s) 0); [contradiction | reflexivity]. }
  rewrite Ht. cbn [AS3935 AS3935IrqTriggered].
  destruct (interruptSource (AS3935 s)) as [irq c1] eqn:E1.
  cbn [fst snd].
  rewrite truthy_1, truthy_4, truthy_8.
  destruct (lightningDistanceKm c1) as [d c2] eqn:E2.
  cbn [fst snd].
  rewrite report_distance_trace.
  unfold println, emit, ret.
  destruct (Z.testbit irq 0), (Z.testbit irq 2), (Z.testbit irq 3);
    cbn [AS3935 AS3935IrqTriggered fst snd app]; try rewrite E2;
    try reflexivity.
  all: pose proof (report_distance_trace d
         {| AS3935IrqTriggered := 0; AS3935 := c2 |}) as R;
       unfold trace_of in R;
       destruct (report_distance d {| AS3935IrqTriggered := 0; AS3935 := c2 |})
         as [[u s'] t'];
       cbn [snd] in R; rewrite R; reflexivity.
Qed.

(** Inside 1..63 exactly one of the three distance messages is printed. *)
Lemma report_distance_in_range (d : Z) (s : state dev) :
  1 <= d <= 63 ->
  trace_of (report_distance d) s =
    if d =? 1 then [SerialPrintln msg_overhead]
    else if d =? 63 then [SerialPrintln msg_out_of_range]
    else [SerialPrint msg_lightning_pre; SerialPrintDec d;
          SerialPrintln msg_lightning_post].
Proof.
  intros Hd. rewrite report_distance_trace.
  destruct (Z.eqb_spec d 1) as [->|H1]; [reflexivity|].
  destruct (Z.eqb_spec d 63) as [->|H63]; [reflexivity|].
  replace (d <? 63) with true by (symmetry; apply Z.ltb_lt; lia).
  replace (d >? 1) with true by (symmetry; apply Z.gtb_lt; lia).
  reflexivity.
Qed.

(** Outside 1..63 nothing is printed for a strike. *)
Lemma report_distance_out_of_range (d : Z) (s : state dev) :
  d < 1 \/ 63 < d ->
  trace_of (report_distance d) s = [].
Proof.
  intros Hd. rewrite report_distance_trace.
  destruct (Z.eqb_spec d 1); [lia|].
  destruct (Z.eqb_spec d 63); [lia|].
  destruct (Z.ltb_spec d 63); destruct (Z.gtb_spec d 1); simpl;
    try reflexivity; lia.
Qed.

(** The messages of a strike at distance [d] announce [Lightning d]. *)
Lemma events_of_distance (d : Z) (s : state dev) :
  1 <= d <= 63 ->
  events_of (trace_of (report_distance d) s) = [Lightning d].
Proof.
  intros Hd. rewrite report_distance_in_range by exact Hd.
  destruct (Z.eqb_spec d 1) as [->|H1]; [reflexivity|].
  destruct (Z.eqb_spec d 63) as [->|H63]; reflexivity.
Qed.

Lemma count_app (p : step -> bool) (t1 t2 : list step) :
  count p (t1 ++ t2) = (count p t1 + count p t2)%nat.
Proof. unfold count. now rewrite filter_app, length_app. Qed.

(** [report_distance] only prints. *)
Lemma report_distance_only_serial (d : Z) (s : state dev) :
  forall p, (forall x, is_serial x = true -> p x = false) ->
  count p (trace_of (report_distance d) s) = 0%nat.
Proof.
  intros p Hp. rewrite report_distance_trace.
  assert (Hc : forall x, is_serial x = true -> count p [x] = 0%nat).
  { intros x Hx. unfold count. simpl. now rewrite (Hp x Hx). }
  destruct (d =? 1), (d =? 63), ((d <? 63) && (d >? 1));
    cbn [app]; unfold count; cbn [filter];
    repeat rewrite Hp by reflexivity; reflexivity.
Qed.

(** The events of a pending pass are those of the bits. *)
Lemma loop_events (s : state dev) :
  AS3935IrqTriggered s <> 0 ->
  (Z.testbit (irq_of s) 3 = true -> 1 <= dist_of s <= 63) ->
  events_of (trace_of loop s) = expected_events (irq_of s) (dist_of s).
Proof.
  intros Hf Hd. rewrite loop_pending by exact Hf. unfold expected_events.
  destruct (Z.testbit (irq_of s) 3).
  - specialize (Hd eq_refl).
    pose proof (events_of_distance (dist_of s) s Hd) as E.
    rewrite report_distance_in_range in * by exact Hd.
    destruct (Z.testbit (irq_of s) 0), (Z.testbit (irq_of s) 2);
      destruct (Z.eqb_spec (dist_of s) 1) as [->|H1];
      try (destruct (Z.eqb_spec (dist_of s) 63) as [->|H63]);
      reflexivity.
  - destruct (Z.testbit (irq_of s) 0), (Z.testbit (irq_of s) 2); reflexivity.
Qed.

(** How often a pending pass touches the flag and the two registers. *)
Lemma loop_counts (s : state dev) :
  AS3935IrqTriggered s <> 0 ->
  count is_flag_write (trace_of loop s) = 1%nat /\
  count is_flag_clear (trace_of loop s) = 1%nat /\
  count is_irq_source_read (trace_of loop s) = 1%nat /\
  count is_distance_read (trace_of loop s) =
    (if Z.testbit (irq_of s) 3 then 1 else 0)%nat.
Proof.
  intros Hf. rewrite loop_pending by exact Hf.
  repeat rewrite count_app.
  assert (Hr : forall p, (forall x, is_serial x = true -> p x = false) ->
               count p (trace_of (report_distance (dist_of s)) s) = 0%nat)
    by (intros p Hp; now apply report_distance_only_serial).
  assert (H1 := Hr is_flag_write). assert (H2 := Hr is_flag_clear).
  assert (H3 := Hr is_irq_source_read). assert (H4 := Hr is_distance_read).
  assert (S1 : forall x, is_serial x = true -> is_flag_write x = false)
    by (intros []; simpl; congruence).
  assert (S2 : forall x, is_serial x = true -> is_flag_clear x = false)
    by (intros []; simpl; congruence).
  assert (S3 : forall x, is_serial x = true -> is_irq_source_read x = false)
    by (intros []; simpl; congruence).
  assert (S4 : forall x, is_serial x = true -> is_distance_read x = false)
    by (intros []; simpl; congruence).
  specialize (H1 S1). specialize (H2 S2). specialize (H3 S3). specialize (H4 S4).
  destruct (Z.testbit (irq_of s) 0), (Z.testbit (irq_of s) 2),
    (Z.testbit (irq_of s) 3);
    repeat split;
    try (change (count ?p (?x :: ?t)) with
           ((if p x then 1 else 0) + count p t)%nat);
    unfold count in *; cbn [filter is_flag_write is_flag_clear
      is_irq_source_read is_distance_read Z.eqb length app Nat.add];
    try rewrite H1; try rewrite H2; try rewrite H3; try rewrite H4;
    reflexivity.
Qed.

(** A pending pass leaves the flag cleared. *)
Lemma loop_clears_flag (s : state dev) :
  AS3935IrqTriggered s <> 0 ->
  AS3935IrqTriggered (state_after loop s) = 0.
Proof.
  intros Hf.
  unfold state_after, loop, bind, read_flag, when, write_flag, call_val.
  assert (Ht : truthy (AS3935IrqTriggered s) = true).
  { unfold truthy. destruct (Z.eqb_spec (AS3935IrqTriggered s) 0); [contradiction | reflexivity]. }
  rewrite Ht. cbn [AS3935 AS3935IrqTriggered].
  destruct (interruptSource (AS3935 s)) as [irq c1].
  destruct (truthy (Z.land irq 1)), (truthy (Z.land irq 4)),
    (truthy (Z.land irq 8));
    unfold println, emit, ret; cbn [AS3935 AS3935IrqTriggered fst snd];
    try reflexivity.
  all: destruct (lightningDistanceKm c1) as [d c2];
       pose proof (report_distance_state d
         {| AS3935IrqTriggered := 0; AS3935 := c2 |}) as R;
       unfold state_after in R;
       destruct (report_distance d {| AS3935IrqTriggered := 0; AS3935 := c2 |})
         as [[u s'] t'];
       cbn [fst snd] in *; subst s'; reflexivity.
Qed.

(** Outside 1..63 a pending pass announces the noise and disturber bits
    only. *)
Lemma loop_events_out_of_range (s : state dev) :
  AS3935IrqTriggered s <> 0 ->
  dist_of s < 1 \/ 63 < dist_of s ->
  events_of (trace_of loop s) =
    (if Z.testbit (irq_of s) 0 then [NoiseFloorTooHigh] else []) ++
    (if Z.testbit (irq_of s) 2 then [DisturberDetected] else []).
Proof.
  intros Hf Hd. rewrite loop_pending by exact Hf.
  rewrite report_distance_out_of_range by exact Hd.
  destruct (Z.testbit (irq_of s) 0), (Z.testbit (irq_of s) 2),
    (Z.testbit (irq_of s) 3); reflexivity.
Qed.

(** The noise and disturber events depend on their own bit only. *)
Lemma loop_noise_disturber (s : state dev) :
  AS3935IrqTriggered s <> 0 ->
  (In NoiseFloorTooHigh (events_of (trace_of loop s)) <->
     Z.testbit (irq_of s) 0 = true) /\
  (In DisturberDetected (events_of (trace_of loop s)) <->
     Z.testbit (irq_of s) 2 = true).
Proof.
  intros Hf.
  destruct (Z_le_gt_dec 1 (dist_of s)) as [Hlo|Hlo];
    [destruct (Z_le_gt_dec (dist_of s) 63) as [Hhi|Hhi]|].
  - rewrite loop_events by (try exact Hf; intros _; lia).
    unfold expected_events.
    destruct (Z.testbit (irq_of s) 0), (Z.testbit (irq_of s) 2),
      (Z.testbit (irq_of s) 3); simpl; intuition congruence.
  - rewrite loop_events_out_of_range by (try exact Hf; lia).
    destruct (Z.testbit (irq_of s) 0), (Z.testbit (irq_of s) 2);
      simpl; intuition congruence.
  - rewrite loop_events_out_of_range by (try exact Hf; lia).
    destruct (Z.testbit (irq_of s) 0), (Z.testbit (irq_of s) 2);
      simpl; intuition congruence.
Qed.

(** The events of a pending pass, whatever the distance. *)
Lemma loop_announces (s : state dev) :
  AS3935IrqTriggered s <> 0 ->
  events_of (trace_of loop s) = announced_events (irq_of s) (dist_of s).
Proof.
  intros Hf. unfold announced_events.
  destruct (Z.leb_spec 1 (dist_of s)) as [Hlo|Hlo];
    [destruct (Z.leb_spec (dist_of s) 63) as [Hhi|Hhi]|].
  - rewrite loop_events by (try exact Hf; intros _; lia).
    unfold expected_events. now rewrite !andb_true_r.
  - rewrite loop_events_out_of_range by (try exact Hf; lia).
    rewrite !andb_false_r, app_nil_r. reflexivity.
  - rewrite loop_events_out_of_range by (try exact Hf; lia).
    rewrite andb_false_r, app_nil_r. reflexivity.
Qed.

(** A strike is among the announced events exactly for bit 3 with a
    distance in 1..63. *)
Lemma in_announced_lightning (irq d k : Z) :
  In (Lightning k) (announced_events irq d) <->
  Z.testbit irq 3 = true /\ k = d /\ 1 <= k <= 63.
Proof.
  unfold announced_events. rewrite !in_app_iff.
  destruct (Z.testbit irq 0), (Z.testbit irq 2), (Z.testbit irq 3);
    destruct (Z.leb_spec 1 d), (Z.leb_spec d 63); cbn [andb In];
    split; intros Hin;
    repeat match goal with
           | H : _ \/ _ |- _ => destruct H
           | H : _ /\ _ |- _ => destruct H
           | H : Lightning _ = Lightning _ |- _ => inversion H; clear H; subst
           | H : False |- _ => contradiction
           end;
    try discriminate; try lia; subst; auto 10.
Qed.

(** C1 (as amended): a pass that finds the flag set reads the
    interrupt-source register once and tests its bits one by one on the
    value read: bit 0 announces NoiseFloorTooHigh, bit 2 announces
    DisturberDetected, and bit 3 makes the pass read the lightning-distance
    register; Lightning(distance) is announced exactly when bit 3 is set and
    the distance read lies in 1..63, and no lightning event is announced for
    a distance outside 1..63. *)
Theorem loop_classifies_bits (s : state dev) :
  AS3935IrqTriggered s <> 0 ->
  let t := trace_of loop s in
  count is_irq_source_read t = 1%nat /\
  (In NoiseFloorTooHigh (events_of t) <-> Z.testbit (irq_of s) 0 = true) /\
  (In DisturberDetected (events_of t) <-> Z.testbit (irq_of s) 2 = true) /\
  count is_distance_read t = (if Z.testbit (irq_of s) 3 then 1 else 0)%nat /\
  (forall k, In (Lightning k) (events_of t) <->
     Z.testbit (irq_of s) 3 = true /\ k = dist_of s /\ 1 <= k <= 63) /\
  events_of t = announced_events (irq_of s) (dist_of s).
Proof.
  intros Hf t. subst t.
  destruct (loop_counts s Hf) as (_ & _ & Hsrc & Hdist).
  destruct (loop_noise_disturber s Hf) as [Hn Hd].
  pose proof (loop_announces s Hf) as Ha.
  split; [exact Hsrc|]. split; [exact Hn|]. split; [exact Hd|].
  split; [exact Hdist|]. split; [|exact Ha].
  intros k. rewrite Ha. apply in_announced_lightning.
Qed.

(** After its first three steps a pending pass neither writes the flag nor
    reads the interrupt-source register again. *)
Lemma loop_pending_rest (s : state dev) :
  AS3935IrqTriggered s <> 0 ->
  exists rest,
    trace_of loop s =
      FlagRead (AS3935IrqTriggered s) :: FlagWrite 0 ::
      Lib (CallInterruptSource (irq_of s)) :: rest /\
    forall x, In x rest ->
      is_flag_write x = false /\ is_irq_source_read x = false.
Proof.
  intros Hf. rewrite loop_pending by exact Hf.
  eexists. split; [reflexivity|].
  intros x Hx.
  rewrite report_distance_trace in Hx.
  repeat (apply in_app_or in Hx; destruct Hx as [Hx|Hx]);
    repeat match type of Hx with
           | In _ (if ?b then _ else _) => destruct b
           | In _ (_ :: _) => destruct Hx as [<-|Hx]
           | In _ (_ ++ _) => apply in_app_or in Hx; destruct Hx as [Hx|Hx]
           | In _ [] => contradiction
           end;
    split; reflexivity.
Qed.

(** C2 (as amended): a pass that finds the flag set clears it exactly once,
    as its first action after testing it, and reads the interrupt-source
    register exactly once, right after the clearing write; no flag write
    follows the read. *)
Theorem loop_clears_flag_then_reads (s : state dev) :
  AS3935IrqTriggered s <> 0 ->
  let t := trace_of loop s in
  first_index is_flag_clear t = Some 1%nat /\
  first_index is_irq_source_read t = Some 2%nat /\
  count is_flag_write t = 1%nat /\
  count is_irq_source_read t = 1%nat /\
  ~ precedes is_irq_source_read is_flag_write t /\
  AS3935IrqTriggered (state_after loop s) = 0.
Proof.
  intros Hf t. subst t.
  destruct (loop_counts s Hf) as (Hw & _ & Hsrc & _).
  pose proof (loop_clears_flag s Hf) as Hc.
  destruct (loop_pending_rest s Hf) as (rest & E & Hrest).
  rewrite E in *.
  repeat split; try assumption.
  intros (i & j & a & b & Hi & Hj & Ha & Hb & Hij).
  destruct i as [|[|[|i]]]; cbn in Hi.
  - inversion Hi; subst a; discriminate.
  - inversion Hi; subst a; discriminate.
  - destruct j as [|[|[|j]]]; try lia.
    cbn in Hj. apply nth_error_In in Hj.
    destruct (Hrest b Hj) as [Hb' _]. congruence.
  - apply nth_error_In in Hi.
    destruct (Hrest a Hi) as [_ Ha']. congruence.
Qed.


(** What follows the distance read in a pass with bit 3 set. *)
Lemma loop_after_distance_read (s : state dev) :
  AS3935IrqTriggered s <> 0 ->
  Z.testbit (irq_of s) 3 = true ->
  after_distance_read (trace_of loop s) =
    trace_of (report_distance (dist_of s)) s.
Proof.
  intros Hf Hb. rewrite loop_pending by exact Hf. rewrite Hb.
  destruct (Z.testbit (irq_of s) 0), (Z.testbit (irq_of s) 2); reflexivity.
Qed.

Lemma loop_lightning_events (s : state dev) :
  AS3935IrqTriggered s <> 0 ->
  Z.testbit (irq_of s) 3 = true ->
  1 <= dist_of s <= 63 ->
  filter is_lightning (events_of (trace_of loop s)) = [Lightning (dist_of s)].
Proof.
  intros Hf Hb Hd. rewrite loop_events by (try exact Hf; intros _; exact Hd).
  unfold expected_events. rewrite Hb.
  destruct (Z.testbit (irq_of s) 0), (Z.testbit (irq_of s) 2); reflexivity.
Qed.

(** C4: in a pass with bit 3 set the distance read is interpreted with the
    sentinels of the range 1..63: distance 1 prints exactly the overhead
    message, Lightning(1); distance 63 prints exactly the out-of-range
    message, Lightning(63); a distance strictly between prints exactly the
    "Lightning detected <distance> kilometers away." line,
    Lightning(distance). *)
Theorem loop_distance_sentinels (s : state dev) :
  AS3935IrqTriggered s <> 0 ->
  Z.testbit (irq_of s) 3 = true ->
  let t := trace_of loop s in
  let d := dist_of s in
  (d = 1 ->
   after_distance_read t = [SerialPrintln msg_overhead] /\
   filter is_lightning (events_of t) = [Lightning 1]) /\
  (d = 63 ->
   after_distance_read t = [SerialPrintln msg_out_of_range] /\
   filter is_lightning (events_of t) = [Lightning 63]) /\
  (1 < d < 63 ->
   after_distance_read t =
     [SerialPrint msg_lightning_pre; SerialPrintDec d;
      SerialPrintln msg_lightning_post] /\
   filter is_lightning (events_of t) = [Lightning d]).
Proof.
  intros Hf Hb t d. subst t d.
  rewrite loop_after_distance_read by assumption.
  repeat split.
  - rewrite report_distance_in_range by lia. now rewrite H.
  - rewrite loop_lightning_events by (try assumption; lia). now rewrite H.
  - rewrite report_distance_in_range by lia. now rewrite H.
  - rewrite loop_lightning_events by (try assumption; lia). now rewrite H.
  - rewrite report_distance_in_range by lia.
    destruct (Z.eqb_spec (dist_of s) 1); [lia|].
    destruct (Z.eqb_spec (dist_of s) 63); [lia|]. reflexivity.
  - apply loop_lightning_events; try assumption; lia.
Qed.

(** C9: the interrupt handler writes the flag and does nothing else: its
    only step is the flag write, it makes no call into the driver (no
    register transport), and the driver object is left as it was. *)
Theorem irq_handler_only_sets_flag (s : state dev) :
  trace_of AS3935Irq s = [FlagWrite 1] /\
  count is_transport (trace_of AS3935Irq s) = 0%nat /\
  state_after AS3935Irq s = mkState 1 (AS3935 s).
Proof. repeat split. Qed.

(** C10: when bits 0, 2 and 3 of the interrupt-source value are all clear,
    a pass that finds the flag set clears the flag, reads the
    interrupt-source register and does nothing more: no event, no serial
    output, no read of the lightning-distance register. *)
Theorem loop_no_cause_bits (s : state dev) :
  AS3935IrqTriggered s <> 0 ->
  Z.testbit (irq_of s) 0 = false ->
  Z.testbit (irq_of s) 2 = false ->
  Z.testbit (irq_of s) 3 = false ->
  let t := trace_of loop s in
  t = [FlagRead (AS3935IrqTriggered s); FlagWrite 0;
       Lib (CallInterruptSource (irq_of s))] /\
  events_of t = [] /\
  count is_serial t = 0%nat /\
  count is_distance_read t = 0%nat /\
  AS3935IrqTriggered (state_after loop s) = 0.
Proof.
  intros Hf H0 H2 H3 t. subst t.
  pose proof (loop_clears_flag s Hf) as Hc.
  rewrite loop_pending by exact Hf. rewrite H0, H2, H3.
  repeat split. exact Hc.
Qed.

End LoopFacts.

(** *** The sketch on concrete register contents *)

Lemma loop_classifies_bits_witness :
  let s := Bench.sketch_with 1 13 30 in
  events_of (Sketch.trace_of Sketch.loop s) =
    [NoiseFloorTooHigh; DisturberDetected; Lightning 30] /\
  count is_distance_read (Sketch.trace_of Sketch.loop s) = 1%nat.
Proof.
  intros s.
  assert (Hf : Sketch.AS3935IrqTriggered s <> 0) by (vm_compute; discriminate).
  destruct (loop_classifies_bits s Hf) as (_ & _ & _ & Hd & _ & He).
  split; [exact He | exact Hd].
Defined.

(** With bit 3 set and the distance register at 0, the pass reads the
    distance and announces no lightning event at all. *)
Lemma loop_strike_unannounced :
  let s := Bench.sketch_with 1 8 0 in
  let t := Sketch.trace_of Sketch.loop s in
  Z.testbit (Sketch.irq_of s) 3 = true /\
  t = [FlagRead 1; FlagWrite 0; Lib (CallInterruptSource 8);
       Lib (CallLightningDistanceKm 0)] /\
  events_of t = [] /\
  ~ In (Lightning (Sketch.dist_of s)) (events_of t).
Proof.
  repeat split. intros H. exact H.
Qed.


(** With the flag set, the clearing write is step 1 of the pass and the
    interrupt-source read is step 2: the write precedes the read, and the
    read does not precede any flag write. *)
Lemma loop_clear_precedes_read :
  let t := Sketch.trace_of Sketch.loop (Bench.sketch_with 1 1 0) in
  t = [FlagRead 1; FlagWrite 0; Lib (CallInterruptSource 1);
       SerialPrintln msg_noise] /\
  precedes is_flag_clear is_irq_source_read t.
Proof.
  split; [reflexivity|].
  exists 1%nat, 2%nat, (FlagWrite 0), (Lib (CallInterruptSource 1)).
  repeat split. lia.
Qed.

Lemma loop_clears_flag_then_reads_witness :
  let t := Sketch.trace_of Sketch.loop (Bench.sketch_with 1 5 0) in
  first_index is_flag_clear t = Some 1%nat /\
  first_index is_irq_source_read t = Some 2%nat.
Proof.
  intros t.
  assert (Hf : Sketch.AS3935IrqTriggered (Bench.sketch_with 1 5 0) <> 0)
    by (vm_compute; discriminate).
  destruct (loop_clears_flag_then_reads (Bench.sketch_with 1 5 0) Hf)
    as (H1 & H2 & _).
  split; assumption.
Defined.


Lemma loop_distance_sentinels_witness :
  filter is_lightning
    (events_of (Sketch.trace_of Sketch.loop (Bench.sketch_with 1 8 1))) =
    [Lightning 1] /\
  filter is_lightning
    (events_of (Sketch.trace_of Sketch.loop (Bench.sketch_with 1 8 63))) =
    [Lightning 63] /\
  after_distance_read (Sketch.trace_of Sketch.loop (Bench.sketch_with 1 8 30)) =
    [SerialPrint msg_lightning_pre; SerialPrintDec 30;
     SerialPrintln msg_lightning_post].
Proof.
  assert (Hf : forall d, Sketch.AS3935IrqTriggered (Bench.sketch_with 1 8 d) <> 0)
    by (intros d; vm_compute; discriminate).
  assert (Hb : forall d, Z.testbit (Sketch.irq_of (Bench.sketch_with 1 8 d)) 3 = true)
    by (intros d; reflexivity).
  split; [|split].
  - destruct (loop_distance_sentinels (Bench.sketch_with 1 8 1) (Hf 1) (Hb 1))
      as (H & _). apply H. reflexivity.
  - destruct (loop_distance_sentinels (Bench.sketch_with 1 8 63) (Hf 63) (Hb 63))
      as (_ & H & _). apply H. reflexivity.
  - destruct (loop_distance_sentinels (Bench.sketch_with 1 8 30) (Hf 30) (Hb 30))
      as (_ & _ & H).
    apply H. vm_compute; split; reflexivity.
Defined.

Lemma loop_no_cause_bits_witness :
  let s := Bench.sketch_with 1 2 0 in
  Sketch.trace_of Sketch.loop s =
    [FlagRead 1; FlagWrite 0; Lib (CallInterruptSource 2)] /\
  Sketch.AS3935IrqTriggered (Sketch.state_after Sketch.loop s) = 0.
Proof.
  intros s.
  assert (Hf : Sketch.AS3935IrqTriggered s <> 0) by (vm_compute; discriminate).
  assert (H0 : Z.testbit (Sketch.irq_of s) 0 = false) by reflexivity.
  assert (H2 : Z.testbit (Sketch.irq_of s) 2 = false) by reflexivity.
  assert (H3 : Z.testbit (Sketch.irq_of s) 3 = false) by reflexivity.
  destruct (loop_no_cause_bits s Hf H0 H2 H3)
    as (H1 & _ & _ & _ & H5).
  split; assumption.
Defined.

(** ** Configuration fields *)

Section FieldFacts.

Import Driver.

Variable fd : FieldDescriptor.
Hypothesis Hwf : wf_field fd.

Lemma testbit_mask (i : Z) :
  0 <= i ->
  Z.testbit (mask fd) i = (offset fd <=? i) && (i <? offset fd + width fd).
Proof.
  intros Hi. destruct Hwf as (Ho & Hw & _). unfold mask.
  rewrite Z.shiftl_spec by exact Hi.
  rewrite Z.testbit_ones by lia.
  destruct (Z.leb_spec 0 (i - offset fd)), (Z.leb_spec (offset fd) i),
    (Z.ltb_spec (i - offset fd) (width fd)),
    (Z.ltb_spec i (offset fd + width fd)); simpl; try reflexivity; lia.
Qed.

(** Bit by bit, [insert] takes the field from [v] and the rest from the
    old byte. *)
Lemma testbit_insert (byte v i : Z) :
  0 <= i ->
  Z.testbit (insert fd byte v) i =
    if (offset fd <=? i) && (i <? offset fd + width fd)
    then Z.testbit v (i - offset fd)
    else Z.testbit byte i.
Proof.
  intros Hi. unfold insert.
  rewrite Z.lor_spec, !Z.land_spec, Z.lnot_spec by exact Hi.
  rewrite testbit_mask by exact Hi.
  rewrite Z.shiftl_spec by exact Hi.
  destruct ((offset fd <=? i) && (i <? offset fd + width fd)); simpl.
  - now rewrite andb_false_r, andb_true_r.
  - now rewrite andb_true_r, andb_false_r, orb_false_r.
Qed.

Lemma testbit_extract (byte i : Z) :
  0 <= i ->
  Z.testbit (extract fd byte) i =
    Z.testbit byte (i + offset fd) && (i <? width fd).
Proof.
  intros Hi. destruct Hwf as (Ho & Hw & _). unfold extract.
  rewrite Z.shiftr_spec by exact Hi.
  rewrite Z.land_spec, testbit_mask by lia.
  f_equal.
  destruct (Z.leb_spec (offset fd) (i + offset fd)),
    (Z.ltb_spec (i + offset fd) (offset fd + width fd)),
    (Z.ltb_spec i (width fd)); simpl; try reflexivity; lia.
Qed.

Lemma testbit_byte (x i : Z) :
  0 <= i -> Z.testbit (Z.land x 255) i = Z.testbit x i && (i <? 8).
Proof.
  intros Hi. rewrite Z.land_spec. f_equal.
  change 255 with (Z.ones 8). rewrite Z.testbit_ones_nonneg by lia.
  reflexivity.
Qed.

Lemma testbit_small (v w i : Z) :
  0 <= v < 2 ^ w -> w <= i -> Z.testbit v i = false.
Proof.
  intros Hv Hi.
  destruct (Z_lt_le_dec w 0) as [Hneg|Hw].
  - rewrite Z.pow_neg_r in Hv by exact Hneg. lia.
  - rewrite <- (Z.mod_small v (2 ^ w)) by exact Hv.
    apply Z.mod_pow2_bits_high. lia.
Qed.

(** What is stored by a write of [insert fd byte v] reads back as [v]. *)
Lemma extract_insert (byte v : Z) :
  0 <= v < 2 ^ width fd ->
  extract fd (Z.land (insert fd byte v) 255) = v.
Proof.
  intros Hv. destruct Hwf as (Ho & Hw & H8).
  apply Z.bits_inj'. intros i Hi.
  rewrite testbit_extract by exact Hi.
  rewrite testbit_byte by lia.
  rewrite testbit_insert by lia.
  destruct (Z.ltb_spec i (width fd)) as [Hlt|Hge].
  - replace ((offset fd <=? i + offset fd) &&
             (i + offset fd <? offset fd + width fd)) with true
      by (symmetry; apply andb_true_intro; split;
          [apply Z.leb_le | apply Z.ltb_lt]; lia).
    replace (i + offset fd <? 8) with true by (symmetry; apply Z.ltb_lt; lia).
    replace (i + offset fd - offset fd) with i by lia.
    now rewrite !andb_true_r.
  - rewrite andb_false_r. symmetry. now apply (testbit_small v (width fd)).
Qed.

(** The registers after a setter. *)
Lemma set_field_regs (v : Z) (d : device) (a : Z) :
  regs (set_field fd v d) a =
    if a =? reg fd then Z.land (insert fd (regs d (reg fd)) v) 255
    else regs d a.
Proof. reflexivity. Qed.

Lemma set_field_bus (v : Z) (d : device) :
  bus (set_field fd v d) =
    bus d ++ [BusRead (reg fd) (regs d (reg fd));
              BusWrite (reg fd) (regs (set_field fd v d) (reg fd))].
Proof.
  unfold set_field, read_register, write_register. cbn [bus regs].
  rewrite Z.eqb_refl, <- app_assoc. reflexivity.
Qed.

(** A getter after a setter reads the value that was set. *)
Lemma get_set_field (v : Z) (d : device) :
  0 <= v < 2 ^ width fd ->
  fst (get_field fd (set_field fd v d)) = v.
Proof.
  intros Hv. unfold get_field, read_register. cbn [fst].
  rewrite set_field_regs, Z.eqb_refl. now apply extract_insert.
Qed.

(** A setter leaves the bits outside its field alone. *)
Lemma set_field_frame (v : Z) (d : device) (i : Z) :
  0 <= i < 8 -> ~ in_span fd i ->
  Z.testbit (regs (set_field fd v d) (reg fd)) i =
  Z.testbit (regs d (reg fd)) i.
Proof.
  intros Hi Hout. unfold in_span in Hout.
  rewrite set_field_regs, Z.eqb_refl.
  rewrite testbit_byte, testbit_insert by lia.
  replace (i <? 8) with true by (symmetry; apply Z.ltb_lt; lia).
  rewrite andb_true_r.
  destruct (Z.leb_spec (offset fd) i), (Z.ltb_spec i (offset fd + width fd));
    simpl; try reflexivity; lia.
Qed.

End FieldFacts.

Section ConfigurationFacts.

Import Driver.

Variable L : Layout.

(** C6: for every configuration field (mode, disturber switch, noise floor,
    watchdog threshold, spike rejection) and every value V of its
    enumeration, setting the field to V and then reading it back on the same
    device returns V. *)
Theorem set_get_round_trip (f : Field) (V : Z) (d : device) :
  wf_layout L ->
  valid L f V = true ->
  fst (get_config L f (set_config L f V d)) = Ok V.
Proof.
  intros HL HV. destruct (HL f) as [Hwf Hfit].
  unfold get_config, set_config.
  pose proof (get_set_field (descriptor L f) Hwf V d (Hfit V HV)) as E.
  destruct (get_field (descriptor L f) (set_field (descriptor L f) V d))
    as [v d1].
  cbn [fst] in *. subst v. now rewrite HV.
Qed.

(** C7: every configuration setter is one read of its register followed by
    one write of the same register; the other registers keep their content,
    and in the written register every bit outside the field's
    (offset, width) span is what it was before, whatever the prior content
    and whatever the value set. *)
Theorem setter_is_read_modify_write (f : Field) (v : Z) (d : device) :
  wf_layout L ->
  let fd := descriptor L f in
  let d' := set_config L f v d in
  bus d' = bus d ++ [BusRead (reg fd) (regs d (reg fd));
                     BusWrite (reg fd) (regs d' (reg fd))] /\
  (forall a, a <> reg fd -> regs d' a = regs d a) /\
  (forall i, 0 <= i < 8 -> ~ in_span fd i ->
     Z.testbit (regs d' (reg fd)) i = Z.testbit (regs d (reg fd)) i).
Proof.
  intros HL fd d'. subst fd d'. destruct (HL f) as [Hwf _].
  unfold set_config. split; [|split].
  - apply set_field_bus.
  - intros a Ha. rewrite set_field_regs.
    destruct (Z.eqb_spec a (reg (descriptor L f))); [contradiction | reflexivity].
  - intros i Hi Hout. now apply set_field_frame.
Qed.

(** The two named setters are instances. *)
Lemma set_mode_frame (m : ModeSetting) (d : device) (i : Z) :
  wf_layout L -> 0 <= i < 8 -> ~ in_span (descriptor L Mode) i ->
  Z.testbit (regs (set_mode L m d) (reg (descriptor L Mode))) i =
  Z.testbit (regs d (reg (descriptor L Mode))) i.
Proof.
  intros HL Hi Hout. destruct (HL Mode) as [Hwf _].
  now apply set_field_frame.
Qed.

Lemma set_disturbers_frame (e : DisturberSetting) (d : device) (i : Z) :
  wf_layout L -> 0 <= i < 8 -> ~ in_span (descriptor L Disturbers) i ->
  Z.testbit (regs (set_disturbers L e d) (reg (descriptor L Disturbers))) i =
  Z.testbit (regs d (reg (descriptor L Disturbers))) i.
Proof.
  intros HL Hi Hout. destruct (HL Disturbers) as [Hwf _].
  now apply set_field_frame.
Qed.

(** A setter does not change a sibling field whose span it does not
    overlap. *)
Lemma set_config_sibling (f g : Field) (v : Z) (d : device) :
  wf_layout L ->
  reg (descriptor L g) <> reg (descriptor L f) \/
  (forall i, in_span (descriptor L g) i -> ~ in_span (descriptor L f) i) ->
  fst (get_field (descriptor L g) (set_config L f v d)) =
  fst (get_field (descriptor L g) d).
Proof.
  intros HL Hdis. destruct (HL f) as [Hf _]. destruct (HL g) as [Hg _].
  unfold get_field, read_register, set_config. cbn [fst].
  rewrite set_field_regs.
  destruct (Z.eqb_spec (reg (descriptor L g)) (reg (descriptor L f)))
    as [E|NE]; [|reflexivity].
  destruct Hdis as [Hne|Hdis]; [contradiction|].
  apply Z.bits_inj'. intros i Hi.
  rewrite !(testbit_extract _ Hg) by exact Hi.
  destruct (Z.ltb_spec i (width (descriptor L g))) as [Hlt|Hge];
    [|now rewrite !andb_false_r].
  rewrite !andb_true_r.
  destruct Hg as (Ho & Hw & H8).
  assert (Hspan : in_span (descriptor L g) (i + offset (descriptor L g)))
    by (unfold in_span; lia).
  pose proof (set_field_frame _ Hf v d (i + offset (descriptor L g))) as F.
  rewrite set_field_regs, Z.eqb_refl in F.
  rewrite E. apply F; [lia | now apply Hdis].
Qed.

(** What a getter returns, from the byte it reads. *)
Lemma get_config_result (f : Field) (d : device) :
  fst (get_config L f d) =
    let v := extract (descriptor L f) (regs d (reg (descriptor L f))) in
    if valid L f v then Ok v else Err RegisterDecodeError.
Proof. reflexivity. Qed.

(** C8: when the field a getter extracts from the byte it read lies outside
    the documented enumeration (noise floor outside 0..7, spike rejection
    outside 0..11, watchdog threshold outside 0..10), the getter returns
    RegisterDecodeError; a getter never returns a value outside the
    enumeration, clamped or not. *)
Theorem getter_reports_decode_error (d : device) :
  let raw f := extract (descriptor L f) (regs d (reg (descriptor L f))) in
  (~ 0 <= raw NoiseFloor <= 7 ->
   fst (get_noise_floor L d) = Err RegisterDecodeError) /\
  (~ 0 <= raw SpikeRejection <= 11 ->
   fst (get_spike_rejection L d) = Err RegisterDecodeError) /\
  (~ 0 <= raw WatchdogThreshold <= 10 ->
   fst (get_watchdog_threshold L d) = Err RegisterDecodeError) /\
  (forall x, fst (get_noise_floor L d) = Ok x ->
     x = raw NoiseFloor /\ 0 <= x <= 7) /\
  (forall x, fst (get_spike_rejection L d) = Ok x ->
     x = raw SpikeRejection /\ 0 <= x <= 11) /\
  (forall x, fst (get_watchdog_threshold L d) = Ok x ->
     x = raw WatchdogThreshold /\ 0 <= x <= 10).
Proof.
  intros raw. subst raw.
  unfold get_noise_floor, get_spike_rejection, get_watchdog_threshold.
  rewrite !get_config_result. cbv zeta. unfold valid.
  repeat split;
    repeat match goal with
           | |- context [Z.leb ?a ?b] => destruct (Z.leb_spec a b)
           | H : context [Z.leb ?a ?b] |- _ => destruct (Z.leb_spec a b)
           end;
    cbn [andb] in *; intros; try reflexivity; try discriminate; try lia.
  all: match goal with
       | H : Ok _ = Ok _ |- _ => inversion H; subst; try reflexivity; lia
       end.
Qed.

End ConfigurationFacts.

Lemma example_layout_wf : Driver.wf_layout Driver.example_layout.
Proof.
  intros f. split.
  - destruct f; unfold Driver.wf_field; cbn; lia.
  - intros v Hv. destruct f; cbn in Hv |- *;
      repeat match goal with
             | H : (_ || _)%bool = true |- _ => apply orb_true_iff in H; destruct H
             | H : (_ && _)%bool = true |- _ => apply andb_true_iff in H; destruct H
             | H : (_ =? _) = true |- _ => apply Z.eqb_eq in H
             | H : (_ <=? _) = true |- _ => apply Z.leb_le in H
             end; lia.
Qed.

Lemma set_get_round_trip_witness :
  fst (Driver.get_config Driver.example_layout Driver.SpikeRejection
         (Driver.set_config Driver.example_layout Driver.SpikeRejection 11
            (Driver.device_filled 255))) = Driver.Ok 11.
Proof.
  apply (set_get_round_trip Driver.example_layout Driver.SpikeRejection 11
           (Driver.device_filled 255) example_layout_wf).
  reflexivity.
Defined.

Lemma setter_is_read_modify_write_witness :
  let fd := Driver.descriptor Driver.example_layout Driver.Mode in
  let d := Driver.device_filled 193 in
  let d' := Driver.set_config Driver.example_layout Driver.Mode 18 d in
  Driver.regs d' (Driver.reg fd) = 229 /\
  Z.testbit (Driver.regs d' (Driver.reg fd)) 7 =
  Z.testbit (Driver.regs d (Driver.reg fd)) 7.
Proof.
  intros fd d d'. split; [reflexivity|].
  destruct (setter_is_read_modify_write Driver.example_layout Driver.Mode 18
              d example_layout_wf) as (_ & _ & H).
  apply H.
  - lia.
  - unfold Driver.in_span. cbn. lia.
Defined.

Lemma getter_reports_decode_error_witness :
  fst (Driver.get_noise_floor Driver.loose_layout (Driver.device_filled 13)) =
    Driver.Err Driver.RegisterDecodeError /\
  fst (Driver.get_spike_rejection Driver.example_layout (Driver.device_filled 13)) =
    Driver.Err Driver.RegisterDecodeError /\
  fst (Driver.get_watchdog_threshold Driver.example_layout (Driver.device_filled 13)) =
    Driver.Err Driver.RegisterDecodeError.
Proof.
  split; [|split].
  - destruct (getter_reports_decode_error Driver.loose_layout
                (Driver.device_filled 13)) as (H & _).
    apply H. vm_compute. intros [_ Hle]. apply Hle. reflexivity.
  - destruct (getter_reports_decode_error Driver.example_layout
                (Driver.device_filled 13)) as (_ & H & _).
    apply H. vm_compute. intros [_ Hle]. apply Hle. reflexivity.
  - destruct (getter_reports_decode_error Driver.example_layout
                (Driver.device_filled 13)) as (_ & _ & H & _).
    apply H. vm_compute. intros [_ Hle]. apply Hle. reflexivity.
Defined.

(** ** Calibration *)

Section CalibrationFacts.

Import Driver.

Variable T : Tuning.
Hypothesis Hwf : wf_field (trim T).

(** Programming a trim and measuring gives the curve's deviation there. *)
Lemma measure_after_set (c : Z) (d : device) :
  0 <= c < 2 ^ width (trim T) ->
  fst (measure T (set_field (trim T) c d)) = Z.abs (curve T c).
Proof.
  intros Hc. unfold measure.
  pose proof (get_set_field (trim T) Hwf c d Hc) as E.
  destruct (get_field (trim T) (set_field (trim T) c d)) as [v d1].
  cbn [fst] in *. now subst v.
Qed.

Lemma better_is_best (seen : list Z) (best : option (Z * Z)) (c : Z) :
  is_best T seen best ->
  is_best T (seen ++ [c]) (better best c (Z.abs (curve T c))).
Proof.
  unfold is_best, better. intros H.
  destruct best as [[b db]|].
  - destruct H as (Hin & Hdb & Hmin).
    destruct (Z.ltb_spec (Z.abs (curve T c)) db) as [Hlt|Hge].
    + repeat split.
      * apply in_or_app; right; now left.
      * intros c' Hc'. apply in_app_or in Hc'. destruct Hc' as [Hc'|[<-|[]]].
        -- specialize (Hmin c' Hc'). lia.
        -- lia.
    + repeat split.
      * apply in_or_app; now left.
      * exact Hdb.
      * intros c' Hc'. apply in_app_or in Hc'. destruct Hc' as [Hc'|[<-|[]]].
        -- now apply Hmin.
        -- exact Hge.
  - subst seen. cbn. repeat split.
    + now left.
    + intros c' [<-|[]]. lia.
Qed.

(** The sweep keeps the best candidate of all it has measured. *)
Lemma sweep_is_best (cs : list Z) :
  Forall (fun c => 0 <= c < 2 ^ width (trim T)) cs ->
  forall seen best d,
    is_best T seen best ->
    is_best T (seen ++ cs) (fst (sweep T cs best d)).
Proof.
  induction 1 as [|c cs Hc Hcs IH]; intros seen best d Hb.
  - cbn. now rewrite app_nil_r.
  - cbn [sweep].
    pose proof (measure_after_set c d Hc) as E.
    destruct (measure T (set_field (trim T) c d)) as [dev_c d2].
    cbn [fst] in E. subst dev_c.
    replace (seen ++ c :: cs) with ((seen ++ [c]) ++ cs)
      by (now rewrite <- app_assoc).
    apply IH. now apply better_is_best.
Qed.

Lemma trims_written_app (b1 b2 : list transaction) :
  trims_written T (b1 ++ b2) = trims_written T b1 ++ trims_written T b2.
Proof. unfold trims_written. apply flat_map_app. Qed.

(** Programming a trim puts it on the bus. *)
Lemma set_field_trims (c : Z) (d : device) :
  0 <= c < 2 ^ width (trim T) ->
  trims_written T (bus (set_field (trim T) c d)) =
    trims_written T (bus d) ++ [c].
Proof.
  intros Hc. rewrite set_field_bus, trims_written_app. f_equal.
  cbn [trims_written flat_map]. rewrite Z.eqb_refl.
  rewrite set_field_regs, Z.eqb_refl.
  rewrite (extract_insert (trim T) Hwf) by exact Hc. reflexivity.
Qed.

Lemma measure_trims (d : device) :
  trims_written T (bus (snd (measure T d))) = trims_written T (bus d).
Proof.
  unfold measure, get_field, read_register. cbn [snd bus].
  rewrite trims_written_app. cbn. apply app_nil_r.
Qed.

(** The sweep programs the candidates one after the other, in their
    order. *)
Lemma sweep_trims (cs : list Z) :
  Forall (fun c => 0 <= c < 2 ^ width (trim T)) cs ->
  forall best d,
    trims_written T (bus (snd (sweep T cs best d))) =
      trims_written T (bus d) ++ cs.
Proof.
  induction 1 as [|c cs Hc Hcs IH]; intros best d.
  - cbn. now rewrite app_nil_r.
  - cbn [sweep].
    pose proof (measure_trims (set_field (trim T) c d)) as M.
    destruct (measure T (set_field (trim T) c d)) as [dev_c d2].
    cbn [snd] in M.
    rewrite IH, M, set_field_trims by exact Hc.
    now rewrite <- app_assoc.
Qed.

(** After the reset, [calibrate] programs every candidate in order and then
    the one it chose. *)
Lemma calibrate_trims (d : device) :
  Forall (fun c => 0 <= c < 2 ^ width (trim T)) (candidates T) ->
  trims_written T (bus (snd (calibrate T d))) =
    trims_written T (bus (reset_to_defaults T d)) ++ candidates T ++
    match candidates T with
    | [] => []
    | _ :: _ => [programmed_trim T (snd (calibrate T d))]
    end.
Proof.
  intros Hfit. unfold calibrate.
  pose proof (sweep_is_best (candidates T) Hfit [] None
                (reset_to_defaults T d) eq_refl) as Hb.
  pose proof (sweep_trims (candidates T) Hfit None (reset_to_defaults T d))
    as Ht.
  cbn [app] in Hb.
  destruct (sweep T (candidates T) None (reset_to_defaults T d))
    as [best d1].
  cbn [fst snd] in Hb, Ht.
  destruct best as [[b db]|].
  - assert (Hc : 0 <= b < 2 ^ width (trim T)).
    { destruct Hb as (Hin & _ & _).
      rewrite Forall_forall in Hfit. now apply Hfit. }
    assert (Hprog : programmed_trim T (set_field (trim T) b d1) = b).
    { unfold programmed_trim. rewrite set_field_regs, Z.eqb_refl.
      now apply (extract_insert (trim T) Hwf). }
    assert (Hne : candidates T <> []).
    { destruct Hb as (Hin & _ & _). intros E. rewrite E in Hin. contradiction. }
    destruct (db <=? tolerance T); cbn [snd];
      rewrite set_field_trims, Ht, Hprog by exact Hc;
      destruct (candidates T); try contradiction;
      now rewrite <- app_assoc.
  - cbn in Hb. cbn [snd]. rewrite Ht, Hb. reflexivity.
Qed.

(** The verdict and the trim left in the device after [calibrate]. *)
Lemma calibrate_is_best (d : device) :
  Forall (fun c => 0 <= c < 2 ^ width (trim T)) (candidates T) ->
  match fst (calibrate T d) with
  | WithinTolerance db =>
      exists b, is_best T (candidates T) (Some (b, db)) /\
                db <= tolerance T /\
                programmed_trim T (snd (calibrate T d)) = b
  | OutOfTolerance (Some db) =>
      exists b, is_best T (candidates T) (Some (b, db)) /\
                tolerance T < db /\
                programmed_trim T (snd (calibrate T d)) = b
  | OutOfTolerance None => candidates T = []
  end.
Proof.
  intros Hfit. unfold calibrate.
  pose proof (sweep_is_best (candidates T) Hfit [] None
                (reset_to_defaults T d) eq_refl) as Hb.
  cbn [app] in Hb.
  destruct (sweep T (candidates T) None (reset_to_defaults T d))
    as [best d1].
  cbn [fst] in Hb.
  destruct best as [[b db]|]; [|exact Hb].
  assert (Hprog : programmed_trim T (set_field (trim T) b d1) = b).
  { unfold programmed_trim. rewrite set_field_regs, Z.eqb_refl.
    apply (extract_insert (trim T) Hwf).
    destruct Hb as (Hin & _ & _).
    rewrite Forall_forall in Hfit. now apply Hfit. }
  destruct (Z.leb_spec db (tolerance T)); cbn [fst snd];
    exists b; repeat split; try apply Hb; assumption.
Qed.

End CalibrationFacts.

Section CalibrationClaim.

Import Driver.

Variable T : Tuning.

(** The verdict is a failure exactly when every candidate is out of the
    band, and the trim left programmed is a best candidate. *)
Lemma calibrate_verdict (d : device) :
  wf_tuning T ->
  (within_tolerance (fst (calibrate T d)) = false <->
     forall c, In c (candidates T) -> tolerance T < Z.abs (curve T c)) /\
  (candidates T <> [] ->
     In (programmed_trim T (snd (calibrate T d))) (candidates T) /\
     forall c, In c (candidates T) ->
       Z.abs (curve T (programmed_trim T (snd (calibrate T d))))
         <= Z.abs (curve T c)).
Proof.
  intros [Hwf Hfit].
  pose proof (calibrate_is_best T Hwf d Hfit) as H.
  destruct (fst (calibrate T d)) as [db|[db|]]; cbn [within_tolerance].
  - destruct H as (b & (Hin & Hdb & Hmin) & Htol & Hprog). split.
    + split; [discriminate|]. intros Hall. specialize (Hall b Hin). lia.
    + intros _. rewrite Hprog. split; [exact Hin|].
      intros c Hc. specialize (Hmin c Hc). lia.
  - destruct H as (b & (Hin & Hdb & Hmin) & Htol & Hprog). split.
    + split; [|reflexivity]. intros _ c Hc. specialize (Hmin c Hc). lia.
    + intros _. rewrite Hprog. split; [exact Hin|].
      intros c Hc. specialize (Hmin c Hc). lia.
  - split.
    + split; [|reflexivity]. intros _ c Hc. rewrite H in Hc. contradiction.
    + intros Hne. contradiction.
Qed.

(** C5: [calibrate] sweeps the candidates of the trim field in their order
    (after the reset it programs each candidate in turn, then the one it
    chose) and leaves the device programmed with a candidate whose deviation
    from the target is minimal; it reports failure
    (CalibrationOutOfTolerance, a false result for the caller) if and only
    if no candidate lies within the tolerance band. *)
Theorem calibrate_selects_minimum (d : device) :
  wf_tuning T ->
  let r := fst (calibrate T d) in
  let d' := snd (calibrate T d) in
  (within_tolerance r = false <->
     forall c, In c (candidates T) -> tolerance T < Z.abs (curve T c)) /\
  (calibration_error r = Some CalibrationOutOfTolerance <->
     within_tolerance r = false) /\
  (candidates T <> [] ->
     In (programmed_trim T d') (candidates T) /\
     forall c, In c (candidates T) ->
       Z.abs (curve T (programmed_trim T d')) <= Z.abs (curve T c)) /\
  trims_written T (bus d') =
    trims_written T (bus (reset_to_defaults T d)) ++ candidates T ++
    match candidates T with
    | [] => []
    | _ :: _ => [programmed_trim T d']
    end.
Proof.
  intros HT r d'. subst r d'.
  destruct (calibrate_verdict d HT) as [Hv Hm].
  destruct HT as [Hwf Hfit].
  repeat split; try apply Hv; try (now apply Hm).
  - destruct (fst (calibrate T d)); [discriminate | reflexivity].
  - destruct (fst (calibrate T d)); [discriminate | reflexivity].
  - now apply calibrate_trims.
Qed.

End CalibrationClaim.

Lemma example_tuning_wf (best floor : Z) :
  Driver.wf_tuning (Driver.example_tuning best floor).
Proof.
  split.
  - unfold Driver.wf_field. cbn. lia.
  - cbn. repeat constructor; cbn; lia.
Qed.

Lemma calibrate_selects_minimum_witness :
  let T := Driver.example_tuning 5 30 in
  let d := Driver.device_filled 0 in
  Driver.within_tolerance (fst (Driver.calibrate T d)) = false /\
  Driver.programmed_trim T (snd (Driver.calibrate T d)) = 5 /\
  (forall c, In c (Driver.candidates T) ->
     Z.abs (Driver.curve T (Driver.programmed_trim T (snd (Driver.calibrate T d))))
       <= Z.abs (Driver.curve T c)).
Proof.
  intros T d.
  destruct (calibrate_selects_minimum T d (example_tuning_wf 5 30))
    as (_ & _ & H & _).
  split; [reflexivity | split; [reflexivity|]].
  apply H. discriminate.
Defined.

(** ** [setup] *)

Section SetupFacts.

Context {dev : Type} {lib : AS3935_lib dev}.

Import Sketch.

(** The value a piece of sketch code returns. *)
Lemma trace_bind {A B} (m : Sk dev A) (k : A -> Sk dev B) (s : state dev) :
  trace_of (bind m k) s =
    trace_of m s ++ trace_of (k (fst (fst (m s)))) (state_after m s).
Proof.
  unfold trace_of, state_after, bind.
  destruct (m s) as [[a s1] t1]. cbn [fst snd].
  destruct (k a s1) as [[b s2] t2]. reflexivity.
Qed.

Lemma state_bind {A B} (m : Sk dev A) (k : A -> Sk dev B) (s : state dev) :
  state_after (bind m k) s =
    state_after (k (fst (fst (m s)))) (state_after m s).
Proof.
  unfold state_after, bind.
  destruct (m s) as [[a s1] t1]. cbn [fst snd].
  destruct (k a s1) as [[b s2] t2]. reflexivity.
Qed.

Lemma trace_call_val {A} (f : dev -> A * dev) (c : A -> libcall)
  (s : state dev) :
  trace_of (call_val f c) s = [Lib (c (fst (f (AS3935 s))))].
Proof.
  unfold trace_of, call_val. now destruct (f (AS3935 s)).
Qed.

Lemma value_call_val {A} (f : dev -> A * dev) (c : A -> libcall)
  (s : state dev) :
  fst (fst (call_val f c s)) = fst (f (AS3935 s)).
Proof.
  unfold call_val. now destruct (f (AS3935 s)).
Qed.

Lemma state_call_val {A} (f : dev -> A * dev) (c : A -> libcall)
  (s : state dev) :
  state_after (call_val f c) s =
    mkState (AS3935IrqTriggered s) (snd (f (AS3935 s))).
Proof.
  unfold state_after, call_val. now destruct (f (AS3935 s)).
Qed.

(** [printAS3935Registers] calls the three getters and prints what they
    returned. *)
Lemma printAS3935Registers_trace (s : state dev) :
  exists nf sr wd,
    trace_of printAS3935Registers s =
      [Lib (CallGetNoiseFloor nf); Lib (CallGetSpikeRejection sr);
       Lib (CallGetWatchdogThreshold wd);
       SerialPrint "Noise floor is: "; SerialPrintlnDec nf;
       SerialPrint "Spike rejection is: "; SerialPrintlnDec sr;
       SerialPrint "Watchdog threshold is: "; SerialPrintlnDec wd].
Proof.
  unfold printAS3935Registers.
  rewrite !trace_bind, !trace_call_val, !value_call_val.
  eexists _, _, _. reflexivity.
Qed.

(** [setup] prints the tuning message exactly when [calibrate()] returned
    false. *)
Lemma setup_reports_calibration (s : state dev) :
  In (SerialPrintln msg_tuning) (trace_of setup s) <->
  fst (calibrate (reset (AS3935 s))) = false.
Proof.
  unfold setup.
  rewrite !trace_bind, ?trace_call_val, ?value_call_val.
  match goal with
  | |- context [trace_of printAS3935Registers ?st] =>
      destruct (printAS3935Registers_trace st) as (nf & sr & wd & E);
      rewrite E; clear E
  end.
  match goal with
  | |- context [calibrate (AS3935 ?st)] =>
      change (AS3935 st) with (reset (AS3935 s))
  end.
  destruct (fst (calibrate (reset (AS3935 s)))); cbn.
  - split; [|discriminate]. intros H.
    repeat (destruct H as [H|H]; [discriminate|]). contradiction.
  - split; [reflexivity|]. intros _. auto 20.
Qed.

End SetupFacts.

(** ** More about the sketch *)

Section SketchSteps.

Context {dev : Type} {lib : AS3935_lib dev}.

Import Sketch.

Lemma trace_emit (e : step) (s : state dev) : trace_of (emit e) s = [e].
Proof. reflexivity. Qed.

Lemma state_emit (e : step) (s : state dev) : state_after (emit e) s = s.
Proof. reflexivity. Qed.

Lemma trace_call_unit (f : dev -> dev) (c : libcall) (s : state dev) :
  trace_of (call_unit f c) s = [Lib c].
Proof. reflexivity. Qed.

Lemma state_call_unit (f : dev -> dev) (c : libcall) (s : state dev) :
  state_after (call_unit f c) s =
    mkState (AS3935IrqTriggered s) (f (AS3935 s)).
Proof. reflexivity. Qed.

Lemma trace_write_flag (v : Z) (s : state dev) :
  trace_of (write_flag v) s = [FlagWrite v].
Proof. reflexivity. Qed.

Lemma state_write_flag (v : Z) (s : state dev) :
  state_after (write_flag v) s = mkState v (AS3935 s).
Proof. reflexivity. Qed.

Lemma trace_when (c : bool) (m : Sk dev unit) (s : state dev) :
  trace_of (when c m) s = if c then trace_of m s else [].
Proof. now destruct c. Qed.

Lemma state_when (c : bool) (m : Sk dev unit) (s : state dev) :
  state_after (when c m) s = if c then state_after m s else s.
Proof. now destruct c. Qed.

(** The state a pass of [loop] ends in. *)
Lemma loop_state (s : state dev) :
  state_after loop s =
    if AS3935IrqTriggered s =? 0 then s
    else mkState 0
           (if Z.testbit (irq_of s) 3
            then snd (lightningDistanceKm (snd (interruptSource (AS3935 s))))
            else snd (interruptSource (AS3935 s))).
Proof.
  unfold loop, irq_of.
  rewrite state_bind, state_when.
  change (fst (fst (read_flag s))) with (AS3935IrqTriggered s).
  change (state_after read_flag s) with s.
  change (truthy (AS3935IrqTriggered s))
    with (negb (AS3935IrqTriggered s =? 0)).
  destruct (AS3935IrqTriggered s =? 0); cbn [negb]; [reflexivity|].
  rewrite !state_bind, !state_when, state_write_flag, state_call_val,
    value_call_val, truthy_8.
  cbn [AS3935 AS3935IrqTriggered].
  unfold println. rewrite !state_emit.
  destruct (truthy (Z.land (fst (interruptSource (AS3935 s))) 1)),
    (truthy (Z.land (fst (interruptSource (AS3935 s))) 4));
    destruct (Z.testbit (fst (interruptSource (AS3935 s))) 3);
    try reflexivity;
    rewrite state_bind, report_distance_state, state_call_val; reflexivity.
Qed.

(** The state [printAS3935Registers] ends in: the flag is kept and the
    driver object has answered the three getters in turn. *)
Lemma printAS3935Registers_state (s : state dev) :
  state_after printAS3935Registers s =
    mkState (AS3935IrqTriggered s)
      (snd (getWatchdogThreshold
         (snd (getSpikeRejection (snd (getNoiseFloor (AS3935 s))))))).
Proof.
  unfold printAS3935Registers, print, println_dec.
  rewrite !state_bind, !state_emit, !state_call_val. reflexivity.
Qed.

(** The exact steps of [printAS3935Registers]. *)
Lemma printAS3935Registers_steps (s : state dev) :
  let c1 := snd (getNoiseFloor (AS3935 s)) in
  let c2 := snd (getSpikeRejection c1) in
  let nf := fst (getNoiseFloor (AS3935 s)) in
  let sr := fst (getSpikeRejection c1) in
  let wd := fst (getWatchdogThreshold c2) in
  trace_of printAS3935Registers s =
    [Lib (CallGetNoiseFloor nf); Lib (CallGetSpikeRejection sr);
     Lib (CallGetWatchdogThreshold wd);
     SerialPrint "Noise floor is: "; SerialPrintlnDec nf;
     SerialPrint "Spike rejection is: "; SerialPrintlnDec sr;
     SerialPrint "Watchdog threshold is: "; SerialPrintlnDec wd].
Proof.
  intros c1 c2 nf sr wd. subst c1 c2 nf sr wd.
  unfold printAS3935Registers, print, println_dec.
  rewrite !trace_bind, ?state_bind, ?trace_emit, ?trace_call_val,
    ?value_call_val, ?state_call_val.
  reflexivity.
Qed.

End SketchSteps.

Section SetupSteps.

Context {dev : Type} {lib : AS3935_lib dev}.

Import Sketch.

(** The state [setup] ends in. *)
Lemma setup_state (s : state dev) :
  state_after setup s =
    mkState 0 (AS3935 (state_after printAS3935Registers (setup_configured s))).
Proof.
  unfold setup, println.
  rewrite !state_bind, state_when, !state_emit, !state_call_unit,
    state_call_val, state_write_flag.
  cbn [AS3935 AS3935IrqTriggered].
  destruct (negb _); reflexivity.
Qed.

(** The steps of [setup], in order. *)
Lemma setup_trace (s : state dev) :
  trace_of setup s =
    [SerialBegin 9600; SpiBegin; SpiSetDataMode "SPI_MODE1";
     SpiSetClockDivider "SPI_CLOCK_DIV64"; SpiSetBitOrder "MSBFIRST";
     Lib CallReset; Lib (CallCalibrate (setup_calibrated s))] ++
    (if setup_calibrated s then [] else [SerialPrintln msg_tuning]) ++
    [Lib CallSetIndoors; Lib CallEnableDisturbers] ++
    trace_of printAS3935Registers (setup_configured s) ++
    [FlagWrite 0; AttachInterrupt "D2" "RISING"].
Proof.
  unfold setup, println, setup_calibrated, setup_configured.
  rewrite !trace_bind, ?state_bind, ?trace_when, ?state_when, ?state_emit,
    ?trace_emit, ?state_call_unit, ?trace_call_unit, ?state_call_val,
    ?trace_call_val, ?value_call_val, ?trace_write_flag.
  cbn [AS3935 AS3935IrqTriggered].
  destruct (fst (calibrate (reset (AS3935 s)))); reflexivity.
Qed.

End SetupSteps.

Section LoopMore.

Context {dev : Type} {lib : AS3935_lib dev}.

Import Sketch.

(** With the flag at 0 a call of [loop] only tests the flag: it makes no
    call into the driver, prints nothing, announces nothing and leaves the
    sketch state as it was. *)
Theorem loop_idle_pass (s : state dev) :
  AS3935IrqTriggered s = 0 ->
  trace_of loop s = [FlagRead 0] /\
  state_after loop s = s /\
  count is_transport (trace_of loop s) = 0%nat /\
  serial_of (trace_of loop s) = [] /\
  events_of (trace_of loop s) = [].
Proof.
  intros H. destruct (loop_idle s H) as [Ht Hs].
  rewrite Ht. repeat split. exact Hs.
Qed.

Lemma loop_flag_zero (s : state dev) :
  AS3935IrqTriggered (state_after loop s) = 0.
Proof.
  destruct (Z.eq_dec (AS3935IrqTriggered s) 0) as [H0|Hne].
  - destruct (loop_idle s H0) as [_ Hs]. now rewrite Hs.
  - now apply loop_clears_flag.
Qed.

(** With no edge taken while [loop] runs, the flag is 0 when [loop]
    returns, whatever it held before; and [loop] itself never writes
    anything but 0 to it. *)
Theorem loop_leaves_flag_clear (s : state dev) :
  AS3935IrqTriggered (state_after loop s) = 0 /\
  forall v, In (FlagWrite v) (trace_of loop s) -> v = 0.
Proof.
  split; [apply loop_flag_zero|].
  destruct (Z.eq_dec (AS3935IrqTriggered s) 0) as [H0|Hne].
  - destruct (loop_idle s H0) as [Ht Hs]. rewrite Ht.
    intros v [Hv|[]]. discriminate.
  - destruct (loop_pending_rest s Hne) as (rest & E & Hrest).
    rewrite E. intros v [Hv|[Hv|[Hv|Hv]]]; try discriminate.
    + now inversion Hv.
    + destruct (Hrest _ Hv) as [Hw _]. discriminate.
Qed.

(** [loop] calls nothing of the driver but [interruptSource()] and
    [lightningDistanceKm()]: no call when the flag is 0, one when it is set,
    two when bit 3 of the source is set as well; the distance is never read
    before the source, and the driver object ends as those calls leave it. *)
Theorem loop_driver_calls (s : state dev) :
  let t := trace_of loop s in
  count is_config_call t = 0%nat /\
  count is_transport t =
    (if AS3935IrqTriggered s =? 0 then 0%nat
     else if Z.testbit (irq_of s) 3 then 2%nat else 1%nat) /\
  ~ precedes is_distance_read is_irq_source_read t /\
  AS3935 (state_after loop s) =
    if AS3935IrqTriggered s =? 0 then AS3935 s
    else if Z.testbit (irq_of s) 3
         then snd (lightningDistanceKm (snd (interruptSource (AS3935 s))))
         else snd (interruptSource (AS3935 s)).
Proof.
  intros t. subst t. rewrite loop_state.
  destruct (Z.eqb_spec (AS3935IrqTriggered s) 0) as [H0|Hne].
  - destruct (loop_idle s H0) as [Ht _]. rewrite Ht.
    repeat split.
    intros (i & j & a & b & Hi & Hj & Ha & Hb & Hij).
    destruct j as [|j]; [lia|]. destruct j; discriminate.
  - assert (Hc : forall p, (forall x, is_serial x = true -> p x = false) ->
                 count p (trace_of (report_distance (dist_of s)) s) = 0%nat)
      by (intros p Hp; now apply report_distance_only_serial).
    assert (C1 := Hc is_config_call). assert (C2 := Hc is_transport).
    assert (S1 : forall x, is_serial x = true -> is_config_call x = false)
      by (intros []; simpl; congruence).
    assert (S2 : forall x, is_serial x = true -> is_transport x = false)
      by (intros []; simpl; congruence).
    specialize (C1 S1). specialize (C2 S2).
    repeat split.
    + rewrite loop_pending by exact Hne. unfold count in *.
      destruct (Z.testbit (irq_of s) 0), (Z.testbit (irq_of s) 2),
        (Z.testbit (irq_of s) 3);
        cbn [filter is_config_call app length]; try rewrite C1; reflexivity.
    + rewrite loop_pending by exact Hne. unfold count in *.
      destruct (Z.testbit (irq_of s) 0), (Z.testbit (irq_of s) 2),
        (Z.testbit (irq_of s) 3);
        cbn [filter is_transport app length]; try rewrite C2; reflexivity.
    + destruct (loop_pending_rest s Hne) as (rest & E & Hrest).
      rewrite E.
      intros (i & j & a & b & Hi & Hj & Ha & Hb & Hij).
      destruct j as [|[|[|j]]]; cbn in Hj.
      * lia.
      * inversion Hj; subst b; discriminate.
      * destruct i as [|[|i]]; [| |lia]; cbn in Hi; inversion Hi; subst a;
          discriminate.
      * apply nth_error_In in Hj. destruct (Hrest b Hj) as [_ Hb'].
        congruence.
Qed.

(** A strike whose distance is outside 1..63 is read but not announced: with
    bit 3 set and such a distance the pass reads the distance register once
    and prints nothing after it; only the noise and disturber bits are
    announced. *)
Theorem loop_strike_out_of_range (s : state dev) :
  AS3935IrqTriggered s <> 0 ->
  Z.testbit (irq_of s) 3 = true ->
  dist_of s < 1 \/ 63 < dist_of s ->
  let t := trace_of loop s in
  count is_distance_read t = 1%nat /\
  after_distance_read t = [] /\
  filter is_lightning (events_of t) = [] /\
  events_of t =
    (if Z.testbit (irq_of s) 0 then [NoiseFloorTooHigh] else []) ++
    (if Z.testbit (irq_of s) 2 then [DisturberDetected] else []).
Proof.
  intros Hf Hb Hd t. subst t.
  destruct (loop_counts s Hf) as (_ & _ & _ & Hc). rewrite Hb in Hc.
  rewrite loop_after_distance_read by assumption.
  rewrite report_distance_out_of_range by exact Hd.
  rewrite loop_events_out_of_range by assumption.
  repeat split; try assumption.
  destruct (Z.testbit (irq_of s) 0), (Z.testbit (irq_of s) 2); reflexivity.
Qed.

(** What a pending pass prints. *)
Lemma loop_serial (s : state dev) :
  AS3935IrqTriggered s <> 0 ->
  serial_of (trace_of loop s) =
    (if Z.testbit (irq_of s) 0 then [SerialPrintln msg_noise] else []) ++
    (if Z.testbit (irq_of s) 2 then [SerialPrintln msg_disturber] else []) ++
    (if Z.testbit (irq_of s) 3
     then trace_of (report_distance (dist_of s)) s else []).
Proof.
  intros Hf. rewrite loop_pending by exact Hf. unfold serial_of.
  assert (R : filter is_serial (trace_of (report_distance (dist_of s)) s) =
              trace_of (report_distance (dist_of s)) s).
  { rewrite report_distance_trace.
    destruct (dist_of s =? 1), (dist_of s =? 63),
      ((dist_of s <? 63) && (dist_of s >? 1)); reflexivity. }
  destruct (Z.testbit (irq_of s) 0), (Z.testbit (irq_of s) 2),
    (Z.testbit (irq_of s) 3); cbn [filter is_serial app]; try rewrite R;
    reflexivity.
Qed.

(** Only bits 0, 2 and 3 of the interrupt source count: two pending passes
    whose sources agree under the mask 13, and whose distances agree when
    bit 3 is set, print the same. *)
Theorem loop_ignores_other_bits (s1 s2 : state dev) :
  AS3935IrqTriggered s1 <> 0 ->
  AS3935IrqTriggered s2 <> 0 ->
  Z.land (irq_of s1) 13 = Z.land (irq_of s2) 13 ->
  (Z.testbit (irq_of s1) 3 = true -> dist_of s1 = dist_of s2) ->
  serial_of (trace_of loop s1) = serial_of (trace_of loop s2).
Proof.
  intros H1 H2 Hm Hd. rewrite !loop_serial by assumption.
  assert (B : forall k, Z.testbit 13 k = true ->
                Z.testbit (irq_of s1) k = Z.testbit (irq_of s2) k).
  { intros k Hk.
    assert (E : Z.testbit (Z.land (irq_of s1) 13) k =
                Z.testbit (Z.land (irq_of s2) 13) k) by now rewrite Hm.
    now rewrite !Z.land_spec, Hk, !andb_true_r in E. }
  rewrite <- (B 0), <- (B 2), <- (B 3) by reflexivity.
  destruct (Z.testbit (irq_of s1) 3); [|reflexivity].
  rewrite <- (Hd eq_refl), !report_distance_trace. reflexivity.
Qed.

End LoopMore.

Section SetupMore.

Context {dev : Type} {lib : AS3935_lib dev}.

Import Sketch.

(** Whatever the flag held before, [setup] ends with the flag at 0 and with
    the driver object reset, calibrated, set indoors, set to report
    disturbers and asked for its three settings, in that order. *)
Theorem setup_final_state (s : state dev) :
  state_after setup s =
    mkState 0
      (snd (getWatchdogThreshold
         (snd (getSpikeRejection
            (snd (getNoiseFloor
               (enableDisturbers
                  (setIndoors (snd (calibrate (reset (AS3935 s)))))))))))).
Proof.
  rewrite setup_state, printAS3935Registers_state. reflexivity.
Qed.

(** The driver calls of [setup]. *)
Lemma setup_transport (s : state dev) :
  let c1 := AS3935 (setup_configured s) in
  let c2 := snd (getNoiseFloor c1) in
  let c3 := snd (getSpikeRejection c2) in
  filter is_transport (trace_of setup s) =
    [Lib CallReset; Lib (CallCalibrate (setup_calibrated s));
     Lib CallSetIndoors; Lib CallEnableDisturbers;
     Lib (CallGetNoiseFloor (fst (getNoiseFloor c1)));
     Lib (CallGetSpikeRejection (fst (getSpikeRejection c2)));
     Lib (CallGetWatchdogThreshold (fst (getWatchdogThreshold c3)))].
Proof.
  intros c1 c2 c3. subst c1 c2 c3.
  rewrite setup_trace.
  rewrite (printAS3935Registers_steps (setup_configured s)).
  destruct (setup_calibrated s); reflexivity.
Qed.

(** [setup] begins with Serial.begin(9600), SPI.begin() and the three SPI
    settings (mode 1, clock divider 64, MSB first), in that order; only then
    comes its first call into the driver, which is the reset; it attaches
    the interrupt handler as its very last step, right after clearing the
    flag, once all its seven driver calls are done. *)
Theorem setup_order (s : state dev) :
  let t := trace_of setup s in
  firstn 6 t =
    [SerialBegin 9600; SpiBegin; SpiSetDataMode "SPI_MODE1";
     SpiSetClockDivider "SPI_CLOCK_DIV64"; SpiSetBitOrder "MSBFIRST";
     Lib CallReset] /\
  first_index is_transport t = Some 5%nat /\
  exists pre,
    t = pre ++ [FlagWrite 0; AttachInterrupt "D2" "RISING"] /\
    count is_attach pre = 0%nat /\
    count is_flag_write pre = 0%nat /\
    count is_transport pre = 7%nat.
Proof.
  intros t. subst t. rewrite setup_trace.
  rewrite (printAS3935Registers_steps (setup_configured s)).
  split; [reflexivity|]. split; [reflexivity|].
  destruct (setup_calibrated s).
  - eexists (_ :: _ :: _ :: _ :: _ :: _ :: _ :: _ :: _ :: _ :: _ :: _ :: _
               :: _ :: _ :: _ :: _ :: _ :: nil).
    split; [reflexivity|]. repeat split.
  - eexists (_ :: _ :: _ :: _ :: _ :: _ :: _ :: _ :: _ :: _ :: _ :: _ :: _
               :: _ :: _ :: _ :: _ :: _ :: _ :: nil).
    split; [reflexivity|]. repeat split.
Qed.

(** A failed calibration is reported and nothing more: [setup] prints the
    tuning message exactly when [calibrate()] returned false, and in both
    cases goes on with the same driver calls. *)
Theorem setup_survives_failed_calibration (s : state dev) :
  let t := trace_of setup s in
  (In (SerialPrintln msg_tuning) t <->
     fst (calibrate (reset (AS3935 s))) = false) /\
  filter is_config_call t = filter is_transport t /\
  In (Lib CallSetIndoors) t /\
  In (Lib CallEnableDisturbers) t /\
  count is_transport t = 7%nat.
Proof.
  intros t. subst t.
  pose proof (setup_transport s) as Ht. cbv zeta in Ht.
  split; [apply setup_reports_calibration|].
  unfold count. rewrite Ht.
  rewrite setup_trace.
  rewrite (printAS3935Registers_steps (setup_configured s)).
  destruct (setup_calibrated s); repeat split; cbn; auto 20.
Qed.

(** [printAS3935Registers] asks the driver for the noise floor, the spike
    rejection and the watchdog threshold, in that order and before it prints
    anything; it prints the three values it was given, each after its
    label; it does not touch the flag. *)
Theorem printAS3935Registers_reads_then_prints (s : state dev) :
  let c1 := snd (getNoiseFloor (AS3935 s)) in
  let c2 := snd (getSpikeRejection c1) in
  let nf := fst (getNoiseFloor (AS3935 s)) in
  let sr := fst (getSpikeRejection c1) in
  let wd := fst (getWatchdogThreshold c2) in
  let t := trace_of printAS3935Registers s in
  filter is_transport t =
    [Lib (CallGetNoiseFloor nf); Lib (CallGetSpikeRejection sr);
     Lib (CallGetWatchdogThreshold wd)] /\
  serial_of t =
    [SerialPrint "Noise floor is: "; SerialPrintlnDec nf;
     SerialPrint "Spike rejection is: "; SerialPrintlnDec sr;
     SerialPrint "Watchdog threshold is: "; SerialPrintlnDec wd] /\
  t = filter is_transport t ++ serial_of t /\
  state_after printAS3935Registers s =
    mkState (AS3935IrqTriggered s) (snd (getWatchdogThreshold c2)).
Proof.
  intros c1 c2 nf sr wd t. subst c1 c2 nf sr wd t.
  rewrite printAS3935Registers_state.
  rewrite (printAS3935Registers_steps s).
  repeat split.
Qed.

End SetupMore.

(** ** Edges and polls *)

Section RuntimeFacts.

Context {dev : Type} {lib : AS3935_lib dev}.

Import Sketch.

Lemma edges_trace (n : nat) (s : state dev) :
  trace_of (Runtime.edges n) s = repeat (FlagWrite 1) n.
Proof.
  revert s. induction n as [|n IH]; intros s; [reflexivity|].
  cbn [Runtime.edges repeat]. rewrite trace_bind, IH. reflexivity.
Qed.

Lemma edges_state (n : nat) (s : state dev) :
  state_after (Runtime.edges n) s =
    match n with O => s | S _ => mkState 1 (AS3935 s) end.
Proof.
  revert s. induction n as [|n IH]; intros s; [reflexivity|].
  cbn [Runtime.edges]. rewrite state_bind, IH.
  destruct n; reflexivity.
Qed.

(** Edges coalesce: however many rising edges arrive before the next call of
    [loop], the handler makes no driver call, the next [loop] makes exactly
    one pass (one read of the interrupt source), and the [loop] after that
    is idle again. *)
Theorem edges_then_poll (n : nat) (s : state dev) :
  (0 < n)%nat ->
  let s1 := state_after (Runtime.edges n) s in
  count is_transport (trace_of (Runtime.edges n) s) = 0%nat /\
  s1 = mkState 1 (AS3935 s) /\
  count is_irq_source_read (trace_of loop s1) = 1%nat /\
  trace_of loop (state_after loop s1) = [FlagRead 0].
Proof.
  intros Hn s1. subst s1. rewrite edges_state, edges_trace.
  destruct n as [|n]; [lia|].
  assert (Hf : AS3935IrqTriggered (mkState 1 (AS3935 s)) <> 0)
    by (cbn; discriminate).
  split; [|split; [reflexivity|split]].
  - clear. unfold count. induction (S n) as [|k IH]; [reflexivity|exact IH].
  - apply (loop_counts _ Hf).
  - apply loop_idle. now apply loop_clears_flag.
Qed.

(** The flag after a schedule. *)
Lemma run_flag (sch : list tick) (s : state dev) :
  AS3935IrqTriggered (state_after (Runtime.run sch) s) =
    pending_after sch (AS3935IrqTriggered s).
Proof.
  revert s. induction sch as [|k sch IH]; intros s; [reflexivity|].
  destruct k; cbn [Runtime.run]; rewrite state_bind, IH; unfold pending_after;
    cbn [fold_left is_edge]; f_equal.
  apply loop_flag_zero.
Qed.

Lemma pending_after_last (sch : list tick) (init : Z) :
  pending_after sch init =
    match sch with
    | [] => init
    | _ :: _ => if is_edge (last sch Poll) then 1 else 0
    end.
Proof.
  destruct sch as [|k sch] using rev_ind; [reflexivity|].
  unfold pending_after. rewrite fold_left_app, last_last. cbn [fold_left].
  destruct (sch ++ [k]) eqn:E; [|reflexivity].
  now apply app_eq_nil in E.
Qed.

(** The passes of a schedule are paid for by the flag it starts with and by
    its edges. *)
Lemma run_passes (sch : list tick) (s : state dev) :
  (count is_irq_source_read (trace_of (Runtime.run sch) s) <=
   List.length (filter is_edge sch) +
   (if (AS3935IrqTriggered s =? 0)%Z then 0 else 1))%nat.
Proof.
  revert s. induction sch as [|k sch IH]; intros s.
  - cbn. lia.
  - destruct k; cbn [Runtime.run filter is_edge length];
      rewrite trace_bind, count_app.
    + specialize (IH (state_after AS3935Irq s)).
      change (state_after AS3935Irq s) with (mkState 1 (AS3935 s)) in *.
      cbn [AS3935IrqTriggered Z.eqb] in IH.
      change (count is_irq_source_read (trace_of AS3935Irq s)) with 0%nat.
      destruct (AS3935IrqTriggered s =? 0); lia.
    + specialize (IH (state_after loop s)).
      rewrite loop_flag_zero in IH. cbn [Z.eqb] in IH.
      destruct (Z.eqb_spec (AS3935IrqTriggered s) 0) as [H0|Hne].
      * destruct (loop_idle s H0) as [Ht _]. rewrite Ht.
        change (count is_irq_source_read [FlagRead 0]) with 0%nat. lia.
      * destruct (loop_counts s Hne) as (_ & _ & Hc & _). rewrite Hc. lia.
Qed.

(** Over the whole program, [setup] and then any schedule of edges and
    polls, the interrupt-source register is read at most once per edge: no
    pass without an edge. *)
Theorem main_passes_bounded_by_edges (sch : list tick) (s : state dev) :
  (count is_irq_source_read (trace_of (Runtime.main sch) s) <=
   List.length (filter is_edge sch))%nat.
Proof.
  unfold Runtime.main. rewrite trace_bind, count_app.
  pose proof (run_passes sch (state_after setup s)) as H.
  rewrite setup_state in H. cbn [AS3935IrqTriggered Z.eqb] in H.
  rewrite setup_state.
  assert (H0 : count is_irq_source_read (trace_of setup s) = 0%nat).
  { rewrite setup_trace.
    rewrite (printAS3935Registers_steps (setup_configured s)).
    destruct (setup_calibrated s); reflexivity. }
  lia.
Qed.

(** At the end of the program so far the flag is 1 when the last thing that
    happened was an edge, and 0 otherwise: the flag only ever holds 0 or 1
    once [setup] has run. *)
Theorem main_flag (sch : list tick) (s : state dev) :
  AS3935IrqTriggered (state_after (Runtime.main sch) s) =
    if is_edge (last sch Poll) then 1 else 0.
Proof.
  unfold Runtime.main. rewrite state_bind, run_flag, setup_state.
  cbn [AS3935IrqTriggered]. rewrite pending_after_last.
  destruct sch; reflexivity.
Qed.

(** After [setup], and as long as no edge arrives, [loop] stays idle: [n]
    calls of [loop] are [n] tests of the flag and nothing else. *)
Theorem setup_then_polls_idle (n : nat) (s : state dev) :
  trace_of (Runtime.run (repeat Poll n)) (state_after setup s) =
    repeat (FlagRead 0) n.
Proof.
  assert (H : forall s', AS3935IrqTriggered s' = 0 ->
            trace_of (Runtime.run (repeat Poll n)) s' = repeat (FlagRead 0) n).
  { induction n as [|n IH]; intros s' H0; [reflexivity|].
    cbn [repeat Runtime.run]. rewrite trace_bind.
    destruct (loop_idle s' H0) as [Ht Hs]. rewrite Ht, Hs, IH by exact H0.
    reflexivity. }
  apply H. rewrite setup_state. reflexivity.
Qed.

End RuntimeFacts.

(** *** On concrete register contents *)

Lemma loop_idle_pass_witness :
  Sketch.trace_of Sketch.loop (Bench.sketch_with 0 13 30) = [FlagRead 0] /\
  Sketch.state_after Sketch.loop (Bench.sketch_with 0 13 30) =
    Bench.sketch_with 0 13 30.
Proof.
  assert (H : Sketch.AS3935IrqTriggered (Bench.sketch_with 0 13 30) = 0)
    by reflexivity.
  destruct (loop_idle_pass (Bench.sketch_with 0 13 30) H) as (H1 & H2 & _).
  split; assumption.
Defined.

Lemma loop_strike_out_of_range_witness :
  let t := Sketch.trace_of Sketch.loop (Bench.sketch_with 1 9 0) in
  after_distance_read t = [] /\ events_of t = [NoiseFloorTooHigh].
Proof.
  intros t.
  assert (Hf : Sketch.AS3935IrqTriggered (Bench.sketch_with 1 9 0) <> 0)
    by (vm_compute; discriminate).
  assert (Hb : Z.testbit (Sketch.irq_of (Bench.sketch_with 1 9 0)) 3 = true)
    by reflexivity.
  assert (Hd : Sketch.dist_of (Bench.sketch_with 1 9 0) < 1 \/
               63 < Sketch.dist_of (Bench.sketch_with 1 9 0))
    by (left; reflexivity).
  destruct (loop_strike_out_of_range (Bench.sketch_with 1 9 0) Hf Hb Hd)
    as (_ & H2 & _ & H4).
  split; assumption.
Defined.

Lemma loop_ignores_other_bits_witness :
  serial_of (Sketch.trace_of Sketch.loop (Bench.sketch_with 1 5 0)) =
  serial_of (Sketch.trace_of Sketch.loop (Bench.sketch_with 7 23 40)).
Proof.
  apply loop_ignores_other_bits.
  - vm_compute; discriminate.
  - vm_compute; discriminate.
  - reflexivity.
  - intros H. vm_compute in H. discriminate.
Defined.

Lemma edges_then_poll_witness :
  let s1 := Sketch.state_after (Runtime.edges 3) (Bench.sketch_with 0 4 0) in
  s1 = Bench.sketch_with 1 4 0 /\
  count is_irq_source_read (Sketch.trace_of Sketch.loop s1) = 1%nat.
Proof.
  intros s1.
  assert (Hn : (0 < 3)%nat) by lia.
  destruct (edges_then_poll 3 (Bench.sketch_with 0 4 0) Hn)
    as (_ & H2 & H3 & _).
  split; assumption.
Defined.
